(** * The message aggregator of [azure_rag_demo.py]

    A shallow embedding of [MessageRetriever] (its four simulated producers
    and [get_latest_messages]) together with the fragment of Python's
    [datetime] module the class relies on, followed by the properties of
    the aggregation: time window, category filter, ordering, error
    behaviour and frame.  The second part embeds the class that uses the
    retriever, [AzureRAGDemo], and [main], over an interface for the chat
    framework, with their behaviour on the console, on missing
    configuration and on failures. *)

From Stdlib Require Import ZArith List String Bool Lia Sorted Permutation.
From Stdlib Require Import DecimalString.
Import ListNotations.
Open Scope Z_scope.

(** ** Exceptions and results *)

(** The exceptions that can travel through [get_latest_messages]: the
    [OverflowError] of [datetime] arithmetic, and whatever a producer
    raises (its message kept as text). *)
Inductive exn : Type :=
| OverflowError
| Exception (what : string).

Inductive result (A : Type) : Type :=
| Ok (a : A)
| Raise (e : exn).
Arguments Ok {A} a.
Arguments Raise {A} e.

(** ** [datetime] and [timedelta]

    Both have microsecond resolution.  A [timedelta] is a signed number of
    microseconds; a naive [datetime] is the number of microseconds since
    [datetime.min], 0001-01-01T00:00:00 (proleptic Gregorian ordinal 1). *)
Module Py.

Definition timedelta := Z.
Definition datetime := Z.

Definition us_per_minute : Z := 60000000.
Definition us_per_hour : Z := 3600000000.
Definition us_per_day : Z := 86400000000.

(** [timedelta.max.days] and [date.max.toordinal()]. *)
Definition MAX_DELTA_DAYS : Z := 999999999.
Definition MAXORDINAL : Z := 3652059.

(** First instant after [datetime.max] = 9999-12-31T23:59:59.999999. *)
Definition datetime_end : Z := MAXORDINAL * us_per_day.

(** [datetime(1970, 1, 1)]: ordinal 719163. *)
Definition unix_epoch : datetime := 719162 * us_per_day.

(** [timedelta(hours=h, minutes=m)] for integer arguments: the value is
    normalised to days (floor), seconds and microseconds, and the
    constructor raises [OverflowError] when the day count leaves
    [-999999999, 999999999]. *)
Definition mk_timedelta (hours minutes : Z) : result timedelta :=
  let us := hours * us_per_hour + minutes * us_per_minute in
  if Z.abs (us / us_per_day) <=? MAX_DELTA_DAYS then Ok us
  else Raise OverflowError.

(** [d - td] for a [datetime] and a [timedelta]: [OverflowError] as soon
    as the result is not a date of the years 1..9999. *)
Definition datetime_sub (d : datetime) (td : timedelta) : result datetime :=
  let r := d - td in
  if (0 <=? r) && (r <? datetime_end) then Ok r else Raise OverflowError.

End Py.
Import Py.

(** ** The clock

    [datetime.now()] is read several times during one call (once for the
    cutoff, once per produced record), and time may pass between two reads.
    A clock is the value of the next read and the delays that separate the
    following reads; when the delays are used up the clock stands still.
    Any finite run reads the clock finitely often, so every run is covered
    by some clock of this shape. *)
Record Clock : Type := { current : datetime; ticks : list Z }.

Definition advance (c : Clock) : Clock :=
  match ticks c with
  | [] => c
  | d :: ds => {| current := current c + d; ticks := ds |}
  end.

(** The value of the [n]-th read from now on (the next read is number 0). *)
Fixpoint reading (c : Clock) (n : nat) : datetime :=
  match n with
  | O => current c
  | S n' => reading (advance c) n'
  end.

(** No time passes at all. *)
Definition frozen (c : Clock) : Prop := ticks c = [].

(** Reads never go back in time and all lie less than [span] apart. *)
Definition steady (span : Z) (c : Clock) : Prop :=
  forall i j, (i <= j)%nat -> 0 <= reading c j - reading c i < span.

(** Every read is a date between the Unix epoch and [datetime.max]. *)
Definition posix (c : Clock) : Prop :=
  forall i, unix_epoch <= reading c i < datetime_end.

(** ** Programs that read the clock

    A producer is a zero-argument callable: it may read the clock, it may
    raise, and it returns its records.  [Prog A] is the syntax of such
    computations, [run_prog] their meaning on a clock. *)
Inductive Prog (A : Type) : Type :=
| Ret (a : A)
| Throw (e : exn)
| Now (k : datetime -> Prog A).
Arguments Ret {A} a.
Arguments Throw {A} e.
Arguments Now {A} k.

Fixpoint pbind {A B : Type} (p : Prog A) (f : A -> Prog B) : Prog B :=
  match p with
  | Ret a => f a
  | Throw e => Throw e
  | Now k => Now (fun t => pbind (k t) f)
  end.

Definition datetime_now : Prog datetime := Now Ret.

Definition lift {A : Type} (r : result A) : Prog A :=
  match r with
  | Ok a => Ret a
  | Raise e => Throw e
  end.

Fixpoint run_prog {A : Type} (p : Prog A) (c : Clock) : result A * Clock :=
  match p with
  | Ret a => (Ok a, c)
  | Throw e => (Raise e, c)
  | Now k => run_prog (k (current c)) (advance c)
  end.

Declare Scope prog_scope.
Delimit Scope prog_scope with prog.
Notation "x <- p ;; k" := (pbind p (fun x => k))
  (at level 61, p at next level, right associativity) : prog_scope.

(** [datetime.now() - timedelta(hours=h, minutes=m)]: the clock is read
    first, then the delta is built, then the difference is taken. *)
Definition now_minus (hours minutes : Z) : Prog datetime :=
  (t <- datetime_now ;;
   d <- lift (mk_timedelta hours minutes) ;;
   lift (datetime_sub t d))%prog.

(** ** Message records *)
Record msg : Type := {
  title : string;
  content : string;
  timestamp : datetime;
  source : string;
  category : string
}.

Definition Producer : Type := Prog (list msg).

(** ** The four simulated producers

    The five records they build, as functions of the timestamp computed at
    call time. *)
Definition technology_record (ts : datetime) : msg :=
  {| title := "人工智能技术突破";
     content := "最新的AI模型在多个基准测试中创下新纪录，显示出强大的推理能力。";
     timestamp := ts;
     source := "tech_news";
     category := "technology" |}.

Definition business_record (ts : datetime) : msg :=
  {| title := "云计算市场增长";
     content := "2024年云计算市场预计将增长25%，主要驱动力来自AI和数据分析需求。";
     timestamp := ts;
     source := "business_news";
     category := "business" |}.

Definition product_record (ts : datetime) : msg :=
  {| title := "新产品发布";
     content := "公司将于下月发布基于AI的新一代客户服务平台，预计将提高效率30%。";
     timestamp := ts;
     source := "internal";
     category := "product" |}.

Definition finance_record (ts : datetime) : msg :=
  {| title := "股市动态";
     content := "科技股今日上涨2.5%，AI相关公司表现突出。投资者对新技术前景保持乐观。";
     timestamp := ts;
     source := "market_feed";
     category := "finance" |}.

Definition feedback_record (ts : datetime) : msg :=
  {| title := "用户反馈";
     content := "用户反映新版本界面更加友好，但希望增加更多自定义选项。";
     timestamp := ts;
     source := "user_feedback";
     category := "feedback" |}.

Definition _get_latest_news : Producer :=
  (ts1 <- now_minus 2 0 ;;
   ts2 <- now_minus 1 0 ;;
   Ret [ technology_record ts1; business_record ts2 ])%prog.

Definition _get_company_updates : Producer :=
  (ts <- now_minus 3 0 ;;
   Ret [ product_record ts ])%prog.

Definition _get_market_data : Producer :=
  (ts <- now_minus 0 30 ;;
   Ret [ finance_record ts ])%prog.

Definition _get_user_messages : Producer :=
  (ts <- now_minus 4 0 ;;
   Ret [ feedback_record ts ])%prog.

(** ** The retriever object and its method

    [self.data_sources] is a dict; iteration over [.items()] follows
    insertion order, so the registry is kept as the list of its items. *)
Record MessageRetriever : Type := {
  data_sources : list (string * Producer)
}.

Definition __init__ : MessageRetriever :=
  {| data_sources :=
       [ ("news"%string, _get_latest_news);
         ("company_updates"%string, _get_company_updates);
         ("market_data"%string, _get_market_data);
         ("user_messages"%string, _get_user_messages) ] |}.

(** A method runs on the object and the clock, may change both, and either
    returns or raises. *)
Record State : Type := { self : MessageRetriever; clock : Clock }.

Definition M (A : Type) : Type := State -> result A * State.

Definition mret {A : Type} (a : A) : M A := fun s => (Ok a, s).

Definition mbind {A B : Type} (m : M A) (f : A -> M B) : M B :=
  fun s =>
    match m s with
    | (Ok a, s') => f a s'
    | (Raise e, s') => (Raise e, s')
    end.

(** Calling a clock-reading program from a method. *)
Definition call {A : Type} (p : Prog A) : M A :=
  fun s =>
    let (r, c') := run_prog p (clock s) in
    (r, {| self := self s; clock := c' |}).

(** [self.data_sources.items()] *)
Definition self_data_sources_items : M (list (string * Producer)) :=
  fun s => (Ok (data_sources (self s)), s).

Declare Scope method_scope.
Delimit Scope method_scope with method.
Notation "x <- m ;; k" := (mbind m (fun x => k))
  (at level 61, m at next level, right associativity) : method_scope.

(** [c in categories] on a list of strings. *)
Definition str_in (c : string) (l : list string) : bool :=
  existsb (String.eqb c) l.

(** The inner loop: [for msg in messages: ...], appending to
    [all_messages]. *)
Fixpoint for_msg (messages : list msg) (cutoff_time : datetime)
    (categories : option (list string)) (all_messages : list msg) : list msg :=
  match messages with
  | [] => all_messages
  | m :: rest =>
      for_msg rest cutoff_time categories
        (if cutoff_time <=? timestamp m then
           if match categories with
              | None => true
              | Some cs => str_in (category m) cs
              end
           then all_messages ++ [m]
           else all_messages
         else all_messages)
  end.

(** The outer loop: [for source_name, source_func in ...items()]. *)
Fixpoint for_source (items : list (string * Producer)) (cutoff_time : datetime)
    (categories : option (list string)) (all_messages : list msg)
    : M (list msg) :=
  match items with
  | [] => mret all_messages
  | (source_name, source_func) :: rest =>
      (messages <- call source_func ;;
       for_source rest cutoff_time categories
         (for_msg messages cutoff_time categories all_messages))%method
  end.

(** [list.sort(key=lambda x: x["timestamp"], reverse=True)]: the stable
    sort by decreasing key.  Its result is determined by its input (the
    only permutation that is sorted and keeps equal keys in their original
    order), here computed by insertion from the right. *)
Fixpoint insert_desc (x : msg) (l : list msg) : list msg :=
  match l with
  | [] => [x]
  | y :: l' =>
      if timestamp y <=? timestamp x then x :: l else y :: insert_desc x l'
  end.

Definition sort_timestamp_reverse (l : list msg) : list msg :=
  fold_right insert_desc [] l.

Definition get_latest_messages (hours_back : Z)
    (categories : option (list string)) : M (list msg) :=
  let all_messages := [] in
  (cutoff_time <- call (now_minus hours_back 0) ;;
   items <- self_data_sources_items ;;
   all_messages <- for_source items cutoff_time categories all_messages ;;
   mret (sort_timestamp_reverse all_messages))%method.

(** ** Vocabulary of the statements *)

(** The test of the two nested [if]s, as one boolean. *)
Definition retained (cutoff_time : datetime) (categories : option (list string))
    (m : msg) : bool :=
  (cutoff_time <=? timestamp m) &&
  match categories with
  | None => true
  | Some cs => str_in (category m) cs
  end.

(** The order the result is sorted by: [a] may stand before [b]. *)
Definition newer_or_equal (a b : msg) : Prop := timestamp b <= timestamp a.

(** The value of [datetime.now() - timedelta(hours=h, minutes=m)] when the
    clock reads [t]. *)
Definition minus_delta (t : datetime) (hours minutes : Z) : result datetime :=
  match mk_timedelta hours minutes with
  | Ok d => datetime_sub t d
  | Raise e => Raise e
  end.

(** Everything the registered producers return during one pass over the
    registry, in the order of the calls. *)
Fixpoint invoke_all (items : list (string * Producer)) : Prog (list msg) :=
  match items with
  | [] => Ret []
  | (_, source_func) :: rest =>
      (messages <- source_func ;;
       more <- invoke_all rest ;;
       Ret (messages ++ more))%prog
  end.

(** Time that passes over all the remaining reads of a clock. *)
Definition elapsed (c : Clock) : Z := fold_right Z.add 0 (ticks c).

(** A source of the scenario of the specification: one record, stamped
    [hours] hours before the moment the source is called. *)
Definition single_record_source (hours : Z)
    (title content source category : string) : Producer :=
  (ts <- now_minus hours 0 ;;
   Ret [ {| title := title;
            content := content;
            timestamp := ts;
            source := source;
            category := category |} ])%prog.

(** Sample inputs: noon of 2026-11-03, a clock standing still at that
    instant and one that moves by up to a few milliseconds between reads;
    a registry whose second source is out of order. *)
Definition noon_2026_11_03 : datetime := 739922 * us_per_day + 12 * us_per_hour.

Definition still_clock : Clock := {| current := noon_2026_11_03; ticks := [] |}.

Definition ticking_clock : Clock :=
  {| current := noon_2026_11_03;
     ticks := [1500; 40; 2300; 0; 975; 12000; 310] |}.

Definition still_state : State := {| self := __init__; clock := still_clock |}.

Definition ticking_state : State := {| self := __init__; clock := ticking_clock |}.

Definition broken_feed : Producer := Throw (Exception "feed unavailable").

Definition broken_state : State :=
  {| self := {| data_sources :=
                  [ ("news"%string, _get_latest_news);
                    ("broken"%string, broken_feed);
                    ("market_data"%string, _get_market_data) ] |};
     clock := ticking_clock |}.

(** The default call on the ticking clock. *)
Definition ticking_default_result : list msg :=
  Eval vm_compute in
    match fst (get_latest_messages 24 None ticking_state) with
    | Ok l => l
    | Raise _ => []
    end.

(** The call for two categories over 2 hours on the ticking clock. *)
Definition two_categories : option (list string) :=
  Some ["technology"%string; "finance"%string].

Definition ticking_filtered_result : list msg :=
  Eval vm_compute in
    match fst (get_latest_messages 2 two_categories ticking_state) with
    | Ok l => l
    | Raise _ => []
    end.

(** * The demo class [AzureRAGDemo] and [main]

    The class glues [MessageRetriever] to the chat framework.  Everything
    the framework and the Unicode tables of [str] do is an interface; the
    control flow, the console traffic and the state of the object are
    spelled out. *)

(** [MessageRetriever()] *)
Definition new_MessageRetriever : MessageRetriever := __init__.

Module Demo.

(** Exceptions as the demo sees them, each with the text [str(e)] gives
    when it has one of its own.  [KeyboardInterrupt] is the only one listed
    that is not an [Exception]; what comes out of the retriever is an
    [Exception] and not a [ValueError]. *)
Inductive pyexn : Type :=
| ValueError (message : string)
| EOFError
| KeyboardInterrupt
| Retrieval (e : exn)
| FrameworkError (what : string).

Definition is_Exception (e : pyexn) : bool :=
  match e with
  | KeyboardInterrupt => false
  | _ => true
  end.

Definition is_ValueError (e : pyexn) : bool :=
  match e with
  | ValueError _ => true
  | _ => false
  end.

Inductive outcome (A : Type) : Type :=
| Returns (a : A)
| Raises (e : pyexn).
Arguments Returns {A} a.
Arguments Raises {A} e.

(** Values held in the metadata dict of a document. *)
Inductive pyval : Type :=
| PStr (s : string)
| PInt (z : Z).

Record Document : Type := {
  page_content : string;
  metadata : list (string * pyval)
}.

(** What the terminal delivers to one [input()]: a line (without its
    newline), end-of-file typed at the prompt, or an interrupt. *)
Inductive key : Type :=
| Line (text : string)
| CtrlD
| CtrlC.

(** The chat framework, the vector store, and the methods of [str],
    [datetime] and [dict] that depend on Unicode or formatting tables.
    Framework calls act on [Services] (network, files) and may raise. *)
Class Framework : Type := {
  Services : Type;
  ChatModel : Type;
  EmbeddingModel : Type;
  PromptTemplate : Type;
  DocsChain : Type;
  VectorStore : Type;
  Retriever : Type;
  (** [s.strip()], [s.lower()], [s[n:]], [s[:n]] *)
  str_strip : string -> string;
  str_lower : string -> string;
  str_from : nat -> string -> string;
  str_upto : nat -> string -> string;
  (** [str(e)] for an exception that came out of the retriever,
      [ts.isoformat()], [str(metadata)] *)
  exn_str : exn -> string;
  isoformat : datetime -> string;
  dict_str : list (string * pyval) -> string;
  (** [AzureChatOpenAI(azure_endpoint=, azure_deployment=, api_key=,
      api_version=, temperature=0.1, max_tokens=None)] *)
  AzureChatOpenAI :
    option string -> option string -> option string -> option string ->
    Services -> outcome ChatModel * Services;
  (** [AzureOpenAIEmbeddings(azure_endpoint=, azure_deployment=, api_key=,
      api_version=)] *)
  AzureOpenAIEmbeddings :
    option string -> string -> option string -> option string ->
    Services -> outcome EmbeddingModel * Services;
  OpenAIEmbeddings : Services -> outcome EmbeddingModel * Services;
  ChatPromptTemplate_from_template :
    string -> Services -> outcome PromptTemplate * Services;
  create_stuff_documents_chain :
    ChatModel -> PromptTemplate -> Services -> outcome DocsChain * Services;
  (** [RecursiveCharacterTextSplitter(chunk_size=1000, chunk_overlap=200,
      add_start_index=True).split_documents(documents)] *)
  split_documents :
    list Document -> Services -> outcome (list Document) * Services;
  (** [Chroma.from_documents(documents=, embedding=, collection_name=)] *)
  Chroma_from_documents :
    list Document -> EmbeddingModel -> string ->
    Services -> outcome VectorStore * Services;
  (** [vector_store.as_retriever(search_type="similarity",
      search_kwargs={"k": 3})] *)
  as_retriever : VectorStore -> Services -> outcome Retriever * Services;
  (** [create_retrieval_chain(retriever, chain).invoke({"input": q})
      ["answer"]] *)
  retrieval_chain_answer :
    Retriever -> DocsChain -> string -> Services -> outcome string * Services;
  (** [retriever.invoke(question)] *)
  retriever_invoke :
    Retriever -> string -> Services -> outcome (list Document) * Services
}.

(** The process around the object: clock, environment variables (after
    [load_dotenv()]), what has been written to the console (oldest first),
    what the terminal still holds, and the services. *)
Record Process `{Framework} : Type := {
  pclock : Clock;
  environ : string -> option string;
  stdout : list string;
  stdin : list key;
  services : Services
}.

Record AzureRAGDemo `{Framework} : Type := {
  llm : ChatModel;
  embeddings : EmbeddingModel;
  message_retriever : MessageRetriever;
  vector_store : option VectorStore;
  retriever : option Retriever;
  combine_docs_chain : DocsChain
}.

(** Computations on a state [S] that return or raise. *)
Definition Eff (S A : Type) : Type := S -> outcome A * S.

Definition ret {S A : Type} (a : A) : Eff S A := fun s => (Returns a, s).

Definition raise {S A : Type} (e : pyexn) : Eff S A := fun s => (Raises e, s).

Definition bind {S A B : Type} (m : Eff S A) (f : A -> Eff S B) : Eff S B :=
  fun s =>
    match m s with
    | (Returns a, s') => f a s'
    | (Raises e, s') => (Raises e, s')
    end.

(** [try: m  except: handler] with a bare [except]. *)
Definition try_except {S A : Type} (m : Eff S A) (handler : Eff S A)
  : Eff S A :=
  fun s =>
    match m s with
    | (Returns a, s') => (Returns a, s')
    | (Raises _, s') => handler s'
    end.

Declare Scope eff_scope.
Delimit Scope eff_scope with eff.
Notation "x <- m ;; k" := (bind m (fun x => k))
  (at level 61, m at next level, right associativity) : eff_scope.
Notation "m ;; k" := (bind m (fun _ => k))
  (at level 61, right associativity) : eff_scope.

(** A function of the process, called from a method of the object. *)
Definition in_process `{Framework} {A : Type} (m : Eff Process A)
  : Eff (AzureRAGDemo * Process) A :=
  fun s =>
    let (r, p') := m (snd s) in (r, (fst s, p')).

(** A call into the framework. *)
Definition framework `{Framework} {A : Type}
    (f : Services -> outcome A * Services) : Eff Process A :=
  fun p =>
    let (r, w') := f (services p) in
    (r, {| pclock := pclock p; environ := environ p; stdout := stdout p;
           stdin := stdin p; services := w' |}).

(** [sys.stdout.write(text)] *)
Definition write `{Framework} (text : string) : Eff Process unit :=
  fun p =>
    (Returns tt,
     {| pclock := pclock p; environ := environ p;
        stdout := stdout p ++ [text];
        stdin := stdin p; services := services p |}).

Definition newline : string := String (Ascii.ascii_of_nat 10) EmptyString.

(** [print(text)] *)
Definition print `{Framework} (text : string) : Eff Process unit :=
  write (text ++ newline).

(** [input(prompt)]: the prompt is written, then a line is read; at the
    end of the input, and when end-of-file is typed, [EOFError]. *)
Definition input `{Framework} (prompt : string) : Eff Process string :=
  (write prompt ;;
   fun p =>
     let rest (ks : list key) :=
       {| pclock := pclock p; environ := environ p; stdout := stdout p;
          stdin := ks; services := services p |} in
     match stdin p with
     | [] => (Raises EOFError, p)
     | Line text :: ks => (Returns text, rest ks)
     | CtrlD :: ks => (Raises EOFError, rest ks)
     | CtrlC :: ks => (Raises KeyboardInterrupt, rest ks)
     end)%eff.

(** [os.getenv(name)] and [os.getenv(name, default)] *)
Definition getenv `{Framework} (name : string) : Eff Process (option string) :=
  fun p => (Returns (environ p name), p).

Definition getenv_default `{Framework} (name default : string)
  : Eff Process string :=
  fun p =>
    (Returns match environ p name with Some v => v | None => default end, p).

(** [str(n)] for an [int]; [str(v)] and truth value for a string or [None];
    [s * n]. *)
Definition str_int (z : Z) : string := NilZero.string_of_int (Z.to_int z).

(** [str(e)] for an exception. *)
Definition exc_str `{Framework} (e : pyexn) : string :=
  match e with
  | ValueError message => message
  | EOFError => "EOF when reading a line"
  | KeyboardInterrupt => ""
  | Retrieval e' => exn_str e'
  | FrameworkError what => what
  end.

Definition str_opt (v : option string) : string :=
  match v with
  | Some s => s
  | None => "None"
  end.

Definition truthy (v : option string) : bool :=
  match v with
  | Some s => negb (s =? "")%string
  | None => false
  end.

Fixpoint str_times (s : string) (n : nat) : string :=
  match n with
  | O => ""
  | S n' => s ++ str_times s n'
  end.

Definition rag_prompt_text : string := "
你是一个智能助手，专门用于回答基于最新信息的问题。

请基于以下提供的上下文信息来回答用户的问题：

上下文信息:
{context}

用户问题: {input}

请注意：
1. 请主要基于提供的上下文信息来回答
2. 如果上下文中没有相关信息，请明确说明
3. 回答要准确、简洁、有用
4. 如果可能，请提及信息的时间和来源

回答:
".

(** [_setup_rag_chain]: the chain it stores in [self.combine_docs_chain]. *)
Definition _setup_rag_chain `{Framework} (self_llm : ChatModel)
  : Eff Process DocsChain :=
  (rag_prompt <- framework (ChatPromptTemplate_from_template rag_prompt_text) ;;
   framework (create_stuff_documents_chain self_llm rag_prompt))%eff.

Definition config_error : string := "请在.env文件中设置Azure OpenAI相关配置".

Definition __init__ `{Framework} : Eff Process AzureRAGDemo :=
  (azure_endpoint <- getenv "AZURE_OPENAI_ENDPOINT" ;;
   azure_api_key <- getenv "AZURE_OPENAI_API_KEY" ;;
   azure_deployment <- getenv "AZURE_OPENAI_DEPLOYMENT_NAME" ;;
   azure_api_version <- getenv "AZURE_OPENAI_API_VERSION" ;;
   print ("初始化Azure OpenAI组件..." ++ " " ++ str_opt azure_endpoint
          ++ " " ++ str_opt azure_api_key ++ " " ++ str_opt azure_deployment
          ++ " " ++ str_opt azure_api_version) ;;
   if negb (forallb truthy [azure_endpoint; azure_api_key; azure_deployment])
   then raise (ValueError config_error)
   else
     self_llm <- framework (AzureChatOpenAI azure_endpoint azure_deployment
                              azure_api_key azure_api_version) ;;
     self_embeddings <-
       try_except
         (deployment <- getenv_default "AZURE_OPENAI_EMBEDDING_DEPLOYMENT"
                          "text-embedding-ada-002" ;;
          framework (AzureOpenAIEmbeddings azure_endpoint deployment
                       azure_api_key azure_api_version))
         (print "警告: 无法初始化Azure嵌入模型，将使用OpenAI嵌入模型" ;;
          framework OpenAIEmbeddings) ;;
     chain <- _setup_rag_chain self_llm ;;
     ret {| llm := self_llm;
            embeddings := self_embeddings;
            message_retriever := new_MessageRetriever;
            vector_store := None;
            retriever := None;
            combine_docs_chain := chain |})%eff.
(** Getting at [self] inside a method. *)
Definition get_self `{Framework} : Eff (AzureRAGDemo * Process) AzureRAGDemo :=
  fun s => (Returns (fst s), s).

Definition set_vector_store `{Framework} (v : VectorStore)
  : Eff (AzureRAGDemo * Process) unit :=
  fun s =>
    let d := fst s in
    (Returns tt,
     ({| llm := llm d; embeddings := embeddings d;
         message_retriever := message_retriever d;
         vector_store := Some v; retriever := retriever d;
         combine_docs_chain := combine_docs_chain d |}, snd s)).

Definition set_retriever `{Framework} (r : Retriever)
  : Eff (AzureRAGDemo * Process) unit :=
  fun s =>
    let d := fst s in
    (Returns tt,
     ({| llm := llm d; embeddings := embeddings d;
         message_retriever := message_retriever d;
         vector_store := vector_store d; retriever := Some r;
         combine_docs_chain := combine_docs_chain d |}, snd s)).

(** [self.message_retriever.get_latest_messages(hours_back=, categories=)]:
    the method of the retriever runs on the retriever and the clock of the
    process. *)
Definition message_retriever_get_latest_messages `{Framework}
    (hours_back : Z) (categories : option (list string))
  : Eff (AzureRAGDemo * Process) (list msg) :=
  fun s =>
    let d := fst s in
    let p := snd s in
    let (r, st) :=
      get_latest_messages hours_back categories
        {| self := message_retriever d; clock := pclock p |} in
    (match r with
     | Ok l => Returns l
     | Raise e => Raises (Retrieval e)
     end,
     ({| llm := llm d; embeddings := embeddings d;
         message_retriever := self st;
         vector_store := vector_store d; retriever := retriever d;
         combine_docs_chain := combine_docs_chain d |},
      {| pclock := clock st; environ := environ p; stdout := stdout p;
         stdin := stdin p; services := services p |})).

(** The loop that turns messages into documents, appending to
    [documents]. *)
Fixpoint for_msg_document `{Framework} (latest_messages : list msg)
    (documents : list Document) : list Document :=
  match latest_messages with
  | [] => documents
  | m :: rest =>
      let doc_content : string :=
        ("标题: " ++ title m ++ newline ++ "内容: " ++ content m)%string in
      let metadata : list (string * pyval) :=
        [ ("title"%string, PStr (title m));
          ("timestamp"%string, PStr (isoformat (timestamp m)));
          ("source"%string, PStr (source m));
          ("category"%string, PStr (category m)) ] in
      for_msg_document rest
        (documents ++ [ {| page_content := doc_content;
                            metadata := metadata |} ])
  end.

Definition update_knowledge_base `{Framework} (hours_back : Z)
    (categories : option (list string))
  : Eff (AzureRAGDemo * Process) unit :=
  (in_process
     (print ("正在获取过去" ++ str_int hours_back ++ "小时的最新消息...")) ;;
   latest_messages <-
     message_retriever_get_latest_messages hours_back categories ;;
   match latest_messages with
   | [] => in_process (print "没有找到最新消息")
   | _ :: _ =>
       in_process
         (print ("找到 " ++ str_int (Z.of_nat (List.length latest_messages))
                 ++ " 条最新消息")) ;;
       let documents := for_msg_document latest_messages [] in
       splits <- in_process (framework (split_documents documents)) ;;
       in_process (print "正在构建向量存储...") ;;
       d <- get_self ;;
       v <- in_process
              (framework (Chroma_from_documents splits (embeddings d)
                            "latest_messages")) ;;
       set_vector_store v ;;
       r <- in_process (framework (as_retriever v)) ;;
       set_retriever r ;;
       in_process (print "知识库更新完成！")
   end)%eff.

Definition no_knowledge_base : string :=
  "请先调用 update_knowledge_base() 方法来构建知识库".

Definition chat_with_latest_info `{Framework} (question : string)
  : Eff (AzureRAGDemo * Process) string :=
  (d <- get_self ;;
   match retriever d with
   | None => ret no_knowledge_base
   | Some r =>
       in_process
         (framework (retrieval_chain_answer r (combine_docs_chain d) question))
   end)%eff.

(** The parameter [k] is accepted and not used. *)
Definition get_relevant_context `{Framework} (question : string) (k : Z)
  : Eff (AzureRAGDemo * Process) (list Document) :=
  (d <- get_self ;;
   match retriever d with
   | None => ret []
   | Some r => in_process (framework (retriever_invoke r question))
   end)%eff.

(** [for i, doc in enumerate(docs, i): print ...] *)
Fixpoint for_doc_print `{Framework} (docs : list Document) (i : Z)
  : Eff Process unit :=
  match docs with
  | [] => ret tt
  | doc :: rest =>
      (print (newline ++ "文档 " ++ str_int i ++ ":") ;;
       print ("内容: " ++ str_upto 200 (page_content doc) ++ "...") ;;
       print ("元数据: " ++ dict_str (metadata doc)) ;;
       for_doc_print rest (i + 1))%eff
  end.

(** How one turn of [while True] leaves the loop body. *)
Inductive turn : Type :=
| Break
| Continue.

(** The [try] block of the loop. *)
Definition chat_turn `{Framework} : Eff (AzureRAGDemo * Process) turn :=
  (line <- in_process (input (newline ++ "您: ")) ;;
   let user_input := str_strip line in
   if str_in (str_lower user_input) ["quit"; "exit"; "bye"; "退出"]%string
   then in_process (print "AI: 再见！") ;; ret Break
   else if (user_input =? "")%string
   then ret Continue
   else if (str_lower user_input =? "update")%string
   then
     in_process (print "更新知识库...") ;;
     update_knowledge_base 24 None ;;
     in_process (print "知识库已更新！") ;;
     ret Continue
   else if prefix "context " (str_lower user_input)
   then
     let question := str_from 8 user_input in
     docs <- get_relevant_context question 3 ;;
     in_process
       (print (newline ++ "找到 " ++ str_int (Z.of_nat (List.length docs))
               ++ " 个相关文档:")) ;;
     in_process (for_doc_print docs 1) ;;
     ret Continue
   else
     in_process (write (newline ++ "AI: ")) ;;
     response <- chat_with_latest_info user_input ;;
     in_process (print response) ;;
     ret Continue)%eff.

(** [while True: try: ... except KeyboardInterrupt: ... except Exception
    as e: ...], run for at most [fuel] turns; [None] when the loop is
    still running after them. *)
Fixpoint chat_loop `{Framework} (fuel : nat) (s : AzureRAGDemo * Process)
  : option (outcome unit * (AzureRAGDemo * Process)) :=
  match fuel with
  | O => None
  | S fuel' =>
      match chat_turn s with
      | (Returns Break, s') => Some (Returns tt, s')
      | (Returns Continue, s') => chat_loop fuel' s'
      | (Raises KeyboardInterrupt, s') =>
          Some (in_process (print (newline ++ newline ++ "AI: 再见！")) s')
      | (Raises e, s') =>
          match in_process
                  (print (newline ++ "发生错误: " ++ exc_str e)) s' with
          | (Returns _, s'') => chat_loop fuel' s''
          | (Raises e', s'') => Some (Raises e', s'')
          end
      end
  end.

Definition start_interactive_chat `{Framework} (fuel : nat)
    (s : AzureRAGDemo * Process)
  : option (outcome unit * (AzureRAGDemo * Process)) :=
  match
    (in_process
       (print "🤖 Azure OpenAI RAG 演示" ;;
        print "基于最新消息的智能问答系统" ;;
        print (str_times "-" 50) ;;
        print "初始化知识库...") ;;
     update_knowledge_base 24 None ;;
     in_process
       (print "" ;;
        print "可以开始提问了！" ;;
        print "输入 'quit', 'exit' 或 'bye' 来退出" ;;
        print "输入 'update' 来更新知识库" ;;
        print "输入 'context <问题>' 来查看相关上下文" ;;
        print (str_times "-" 50)))%eff s
  with
  | (Returns _, s') => chat_loop fuel s'
  | (Raises e, s') => Some (Raises e, s')
  end.

Definition main `{Framework} (fuel : nat) (p : Process)
  : option (outcome unit * Process) :=
  let handle (e : pyexn) : Eff Process unit :=
    if is_ValueError e then
      (print ("配置错误: " ++ exc_str e) ;;
       print (newline ++ "请确保已创建 .env 文件并设置了以下配置：") ;;
       print "- AZURE_OPENAI_ENDPOINT" ;;
       print "- AZURE_OPENAI_API_KEY" ;;
       print "- AZURE_OPENAI_DEPLOYMENT_NAME" ;;
       print "- AZURE_OPENAI_API_VERSION" ;;
       print "- AZURE_OPENAI_EMBEDDING_DEPLOYMENT (可选)")%eff
    else if is_Exception e then print ("初始化失败: " ++ exc_str e)
    else raise e in
  match __init__ p with
  | (Raises e, p') => Some (handle e p')
  | (Returns demo, p') =>
      match start_interactive_chat fuel (demo, p') with
      | None => None
      | Some (Returns _, s') => Some (Returns tt, snd s')
      | Some (Raises e, s') => Some (handle e (snd s'))
      end
  end.
End Demo.
(** ** Vocabulary for the demo class *)

(** The document made of one message. *)
Definition document_of `{Demo.Framework} (m : msg) : Demo.Document :=
  {| Demo.page_content :=
       ("标题: " ++ title m ++ Demo.newline ++ "内容: " ++ content m)%string;
     Demo.metadata :=
       [ ("title"%string, Demo.PStr (title m));
         ("timestamp"%string, Demo.PStr (Demo.isoformat (timestamp m)));
         ("source"%string, Demo.PStr (source m));
         ("category"%string, Demo.PStr (category m)) ] |}.

(** The first line [AzureRAGDemo()] prints. *)
Definition config_banner (env : string -> option string) : string :=
  (("初始化Azure OpenAI组件..." ++ " "
    ++ Demo.str_opt (env "AZURE_OPENAI_ENDPOINT") ++ " "
    ++ Demo.str_opt (env "AZURE_OPENAI_API_KEY") ++ " "
    ++ Demo.str_opt (env "AZURE_OPENAI_DEPLOYMENT_NAME") ++ " "
    ++ Demo.str_opt (env "AZURE_OPENAI_API_VERSION"))
   ++ Demo.newline)%string.

(** The three settings [AzureRAGDemo()] insists on. *)
Definition config_complete (env : string -> option string) : bool :=
  forallb Demo.truthy
    [ env "AZURE_OPENAI_ENDPOINT"%string;
      env "AZURE_OPENAI_API_KEY"%string;
      env "AZURE_OPENAI_DEPLOYMENT_NAME"%string ].

(** What [main] prints after a [ValueError] with text [message]. *)
Definition config_help (message : string) : list string :=
  [ ("配置错误: " ++ message ++ Demo.newline)%string;
    (Demo.newline ++ "请确保已创建 .env 文件并设置了以下配置：" ++ Demo.newline)%string;
    ("- AZURE_OPENAI_ENDPOINT" ++ Demo.newline)%string;
    ("- AZURE_OPENAI_API_KEY" ++ Demo.newline)%string;
    ("- AZURE_OPENAI_DEPLOYMENT_NAME" ++ Demo.newline)%string;
    ("- AZURE_OPENAI_API_VERSION" ++ Demo.newline)%string;
    ("- AZURE_OPENAI_EMBEDDING_DEPLOYMENT (可选)" ++ Demo.newline)%string ].

(** The same process with other console contents. *)
Definition with_stdout `{Demo.Framework} (p : Demo.Process)
    (out : list string) : Demo.Process :=
  {| Demo.pclock := Demo.pclock p; Demo.environ := Demo.environ p;
     Demo.stdout := out; Demo.stdin := Demo.stdin p;
     Demo.services := Demo.services p |}.

(** The state of the retriever as a method of the demo finds it. *)
Definition retriever_state `{Demo.Framework} (d : Demo.AzureRAGDemo)
    (p : Demo.Process) : State :=
  {| self := Demo.message_retriever d; clock := Demo.pclock p |}.

(** A stand-in framework for sample runs: every call succeeds and is
    counted; strings are handled byte-wise. *)
Definition counting_framework : Demo.Framework :=
  {| Demo.Services := nat;
     Demo.ChatModel := unit;
     Demo.EmbeddingModel := unit;
     Demo.PromptTemplate := unit;
     Demo.DocsChain := unit;
     Demo.VectorStore := list Demo.Document;
     Demo.Retriever := list Demo.Document;
     Demo.str_strip := fun s => s;
     Demo.str_lower := fun s => s;
     Demo.str_from := fun n s => substring n (String.length s - n) s;
     Demo.str_upto := fun n s => substring 0 n s;
     Demo.exn_str := fun _ => "overflow"%string;
     Demo.isoformat := fun _ => "2026-11-03T12:00:00"%string;
     Demo.dict_str := fun _ => "{}"%string;
     Demo.AzureChatOpenAI := fun _ _ _ _ n => (Demo.Returns tt, S n);
     Demo.AzureOpenAIEmbeddings := fun _ _ _ _ n => (Demo.Returns tt, S n);
     Demo.OpenAIEmbeddings := fun n => (Demo.Returns tt, S n);
     Demo.ChatPromptTemplate_from_template := fun _ n => (Demo.Returns tt, S n);
     Demo.create_stuff_documents_chain := fun _ _ n => (Demo.Returns tt, S n);
     Demo.split_documents := fun docs n => (Demo.Returns docs, S n);
     Demo.Chroma_from_documents := fun docs _ _ n => (Demo.Returns docs, S n);
     Demo.as_retriever := fun v n => (Demo.Returns v, S n);
     Demo.retrieval_chain_answer :=
       fun _ _ q n => (Demo.Returns ("answer to " ++ q)%string, S n);
     Demo.retriever_invoke := fun r _ n => (Demo.Returns (firstn 3 r), S n) |}.

Definition full_environment (name : string) : option string :=
  if (name =? "AZURE_OPENAI_ENDPOINT")%string
  then Some "https://example.openai.azure.com/"%string
  else if (name =? "AZURE_OPENAI_API_KEY")%string then Some "s3cr3t"%string
  else if (name =? "AZURE_OPENAI_DEPLOYMENT_NAME")%string
  then Some "gpt-4o"%string
  else None.

(** The deployment name is set but empty. *)
Definition broken_environment (name : string) : option string :=
  if (name =? "AZURE_OPENAI_ENDPOINT")%string
  then Some "https://example.openai.azure.com/"%string
  else if (name =? "AZURE_OPENAI_API_KEY")%string then Some "s3cr3t"%string
  else if (name =? "AZURE_OPENAI_DEPLOYMENT_NAME")%string then Some ""%string
  else None.

Definition sample_process (env : string -> option string)
    (keys : list Demo.key) : @Demo.Process counting_framework :=
  @Demo.Build_Process counting_framework ticking_clock env [] keys O.

Definition sample_demo : @Demo.AzureRAGDemo counting_framework :=
  @Demo.Build_AzureRAGDemo counting_framework tt tt new_MessageRetriever
    None None tt.
(** Lines [update_knowledge_base] prints. *)
Definition searching_line (hours_back : Z) : string :=
  (("正在获取过去" ++ Demo.str_int hours_back ++ "小时的最新消息...")
   ++ Demo.newline)%string.

Definition nothing_found_line : string :=
  ("没有找到最新消息" ++ Demo.newline)%string.

Definition found_line (n : nat) : string :=
  (("找到 " ++ Demo.str_int (Z.of_nat n) ++ " 条最新消息")
   ++ Demo.newline)%string.

Definition building_line : string :=
  ("正在构建向量存储..." ++ Demo.newline)%string.

Definition done_line : string := ("知识库更新完成！" ++ Demo.newline)%string.

(** The process after a method of the demo has run the retriever and has
    written [lines], with the services in state [w]. *)
Definition after_retrieval `{Demo.Framework} (p : Demo.Process)
    (st : State) (lines : list string) (w : Demo.Services) : Demo.Process :=
  {| Demo.pclock := clock st; Demo.environ := Demo.environ p;
     Demo.stdout := Demo.stdout p ++ lines; Demo.stdin := Demo.stdin p;
     Demo.services := w |}.

(** The demo object with a new vector store and retriever. *)
Definition with_knowledge_base `{Demo.Framework} (d : Demo.AzureRAGDemo)
    (v : option Demo.VectorStore) (r : option Demo.Retriever)
  : Demo.AzureRAGDemo :=
  {| Demo.llm := Demo.llm d; Demo.embeddings := Demo.embeddings d;
     Demo.message_retriever := Demo.message_retriever d;
     Demo.vector_store := v; Demo.retriever := r;
     Demo.combine_docs_chain := Demo.combine_docs_chain d |}.
(** Console texts of the chat loop. *)
Definition prompt_text : string := (Demo.newline ++ "您: ")%string.

Definition goodbye_line : string := ("AI: 再见！" ++ Demo.newline)%string.

Definition interrupted_goodbye_line : string :=
  ((Demo.newline ++ Demo.newline ++ "AI: 再见！") ++ Demo.newline)%string.

Definition error_line `{Demo.Framework} (e : Demo.pyexn) : string :=
  ((Demo.newline ++ "发生错误: " ++ Demo.exc_str e) ++ Demo.newline)%string.
(** A framework for sample runs that go wrong: the user interrupts the
    construction of the chat model, and the vector store cannot be built. *)
Definition adverse_framework : Demo.Framework :=
  {| Demo.Services := nat;
     Demo.ChatModel := unit;
     Demo.EmbeddingModel := unit;
     Demo.PromptTemplate := unit;
     Demo.DocsChain := unit;
     Demo.VectorStore := list Demo.Document;
     Demo.Retriever := list Demo.Document;
     Demo.str_strip := fun s => s;
     Demo.str_lower := fun s => s;
     Demo.str_from := fun n s => substring n (String.length s - n) s;
     Demo.str_upto := fun n s => substring 0 n s;
     Demo.exn_str := fun _ => "overflow"%string;
     Demo.isoformat := fun _ => "2026-11-03T12:00:00"%string;
     Demo.dict_str := fun _ => "{}"%string;
     Demo.AzureChatOpenAI :=
       fun _ _ _ _ n => (Demo.Raises Demo.KeyboardInterrupt, S n);
     Demo.AzureOpenAIEmbeddings := fun _ _ _ _ n => (Demo.Returns tt, S n);
     Demo.OpenAIEmbeddings := fun n => (Demo.Returns tt, S n);
     Demo.ChatPromptTemplate_from_template := fun _ n => (Demo.Returns tt, S n);
     Demo.create_stuff_documents_chain := fun _ _ n => (Demo.Returns tt, S n);
     Demo.split_documents := fun docs n => (Demo.Returns docs, S n);
     Demo.Chroma_from_documents :=
       fun _ _ _ n =>
         (Demo.Raises (Demo.FrameworkError "embedding quota exceeded"), S n);
     Demo.as_retriever := fun v n => (Demo.Returns v, S n);
     Demo.retrieval_chain_answer :=
       fun _ _ q n => (Demo.Returns ("answer to " ++ q)%string, S n);
     Demo.retriever_invoke := fun r _ n => (Demo.Returns (firstn 3 r), S n) |}.

Definition adverse_process (env : string -> option string)
    (keys : list Demo.key) : @Demo.Process adverse_framework :=
  @Demo.Build_Process adverse_framework ticking_clock env [] keys O.

Definition adverse_demo : @Demo.AzureRAGDemo adverse_framework :=
  @Demo.Build_AzureRAGDemo adverse_framework tt tt new_MessageRetriever
    None None tt.

(** The process as [AzureRAGDemo()] leaves it on the full environment. *)
Definition constructed_process : @Demo.Process counting_framework :=
  @Demo.Build_Process counting_framework ticking_clock full_environment
    [config_banner full_environment] [] 4%nat.

(** A turn that does not end the loop. *)
Definition goes_on {S : Type} (m : Demo.Eff S Demo.turn) : Prop :=
  forall s s', m s <> (Demo.Returns Demo.Break, s').

(** * Properties *)

(** ** Clocks *)

Lemma frozen_advance (c : Clock) : frozen c -> advance c = c.
Proof. unfold frozen, advance. intros ->. reflexivity. Qed.

Lemma elapsed_advance (c : Clock) :
  Forall (fun d => 0 <= d) (ticks c) ->
  Forall (fun d => 0 <= d) (ticks (advance c)) /\
  0 <= current (advance c) - current c /\
  current (advance c) + elapsed (advance c) = current c + elapsed c.
Proof.
  unfold advance, elapsed. destruct c as [t ds]; simpl.
  destruct ds as [|d ds]; simpl; intros H.
  - repeat split; [assumption | lia].
  - inversion H; subst. repeat split; [assumption | lia | lia].
Qed.

Lemma elapsed_nonneg (c : Clock) :
  Forall (fun d => 0 <= d) (ticks c) -> 0 <= elapsed c.
Proof.
  unfold elapsed. induction 1 as [|d ds Hd _ IH]; simpl; lia.
Qed.

Lemma reading_bounds (n : nat) : forall c,
  Forall (fun d => 0 <= d) (ticks c) ->
  current c <= reading c n <= current c + elapsed c.
Proof.
  induction n as [|n IH]; intros c H; simpl.
  - pose proof (elapsed_nonneg c H). lia.
  - destruct (elapsed_advance c H) as (H1 & H2 & H3).
    specialize (IH (advance c) H1). lia.
Qed.

Lemma reading_gap (i : nat) : forall j c,
  (i <= j)%nat ->
  Forall (fun d => 0 <= d) (ticks c) ->
  0 <= reading c j - reading c i <= elapsed c.
Proof.
  induction i as [|i IH]; intros j c Hij H.
  - pose proof (reading_bounds j c H). simpl. lia.
  - destruct j as [|j]; [lia|]. simpl.
    destruct (elapsed_advance c H) as (H1 & H2 & H3).
    assert (Hij' : (i <= j)%nat) by lia.
    specialize (IH j (advance c) Hij' H1). lia.
Qed.

(** A clock whose delays are non-negative and add up to less than [span]
    is steady. *)
Lemma steady_of_ticks (span : Z) (c : Clock) :
  Forall (fun d => 0 <= d) (ticks c) -> elapsed c < span -> steady span c.
Proof.
  intros H Hs i j Hij. pose proof (reading_gap i j c Hij H). lia.
Qed.

Lemma posix_of_ticks (c : Clock) :
  Forall (fun d => 0 <= d) (ticks c) ->
  unix_epoch <= current c -> current c + elapsed c < datetime_end ->
  posix c.
Proof.
  intros H Hlo Hhi i. pose proof (reading_bounds i c H). lia.
Qed.

Lemma posix_advance (c : Clock) : posix c -> posix (advance c).
Proof. intros H i. apply (H (S i)). Qed.

(** ** Running programs *)

Lemma run_pbind {A B : Type} (p : Prog A) (f : A -> Prog B) : forall c,
  run_prog (pbind p f) c =
  match run_prog p c with
  | (Ok a, c') => run_prog (f a) c'
  | (Raise e, c') => (Raise e, c')
  end.
Proof.
  induction p as [a|e|k IH]; intros c; simpl; auto.
Qed.

(** On a frozen clock a program leaves the clock as it found it. *)
Lemma run_prog_frozen {A : Type} (p : Prog A) : forall c,
  frozen c -> snd (run_prog p c) = c.
Proof.
  induction p as [a|e|k IH]; intros c Hc; simpl; auto.
  rewrite (frozen_advance c Hc). apply IH. exact Hc.
Qed.

Lemma run_now_minus (hours minutes : Z) (c : Clock) :
  run_prog (now_minus hours minutes) c =
  (minus_delta (current c) hours minutes, advance c).
Proof.
  unfold now_minus, minus_delta, datetime_now. simpl.
  destruct (mk_timedelta hours minutes) as [d|e]; simpl; [|reflexivity].
  destruct (datetime_sub (current c) d); reflexivity.
Qed.

Lemma minus_delta_ok (t hours minutes r : Z) :
  minus_delta t hours minutes = Ok r ->
  r = t - (hours * us_per_hour + minutes * us_per_minute) /\
  0 <= r < datetime_end.
Proof.
  unfold minus_delta, mk_timedelta, datetime_sub.
  destruct (Z.abs _ <=? MAX_DELTA_DAYS); [|discriminate].
  destruct (0 <=? _) eqn:E1; [|discriminate].
  destruct (_ <? datetime_end) eqn:E2; [|discriminate].
  simpl. intros [= <-]. lia.
Qed.

Lemma minus_delta_raises (t hours minutes : Z) (e : exn) :
  minus_delta t hours minutes = Raise e -> e = OverflowError.
Proof.
  unfold minus_delta, mk_timedelta, datetime_sub.
  destruct (Z.abs _ <=? MAX_DELTA_DAYS); [|congruence].
  destruct ((0 <=? _) && _); congruence.
Qed.

(** Deltas of a few hours or minutes, taken from a date of the Unix era,
    never overflow. *)
Lemma minus_delta_small (t hours minutes : Z) :
  0 <= hours * us_per_hour + minutes * us_per_minute <= unix_epoch ->
  unix_epoch <= t < datetime_end ->
  minus_delta t hours minutes =
  Ok (t - (hours * us_per_hour + minutes * us_per_minute)).
Proof.
  unfold minus_delta, mk_timedelta, datetime_sub.
  set (us := hours * us_per_hour + minutes * us_per_minute).
  intros Hus Ht.
  assert (Hd : Z.abs (us / us_per_day) <= MAX_DELTA_DAYS).
  { assert (0 <= us / us_per_day <= 719162).
    { unfold unix_epoch, us_per_day in *. split.
      - apply Z.div_pos; lia.
      - apply Z.div_le_upper_bound; lia. }
    unfold MAX_DELTA_DAYS. lia. }
  apply Z.leb_le in Hd. rewrite Hd.
  assert (H1 : (0 <=? t - us) = true) by (apply Z.leb_le; lia).
  assert (H2 : (t - us <? datetime_end) = true) by (apply Z.ltb_lt; lia).
  rewrite H1, H2. reflexivity.
Qed.

(** ** The two loops *)

Lemma for_msg_filter (cutoff_time : datetime) (categories : option (list string))
    (messages : list msg) : forall all_messages,
  for_msg messages cutoff_time categories all_messages =
  all_messages ++ filter (retained cutoff_time categories) messages.
Proof.
  induction messages as [|m rest IH]; intros acc; simpl.
  - now rewrite app_nil_r.
  - rewrite IH. unfold retained at 2.
    destruct (cutoff_time <=? timestamp m); simpl.
    + destruct categories as [cs|].
      * destruct (str_in (category m) cs); simpl;
          [now rewrite <- app_assoc | reflexivity].
      * now rewrite <- app_assoc.
    + reflexivity.
Qed.

Lemma for_source_invoke_all (cutoff_time : datetime)
    (categories : option (list string)) (items : list (string * Producer)) :
  forall all_messages s,
  for_source items cutoff_time categories all_messages s =
  match run_prog (invoke_all items) (clock s) with
  | (Ok produced, c') =>
      (Ok (all_messages ++ filter (retained cutoff_time categories) produced),
       {| self := self s; clock := c' |})
  | (Raise e, c') => (Raise e, {| self := self s; clock := c' |})
  end.
Proof.
  induction items as [|[name p] rest IH]; intros acc s; simpl.
  - unfold mret. rewrite app_nil_r. destruct s; reflexivity.
  - unfold mbind, call. rewrite run_pbind.
    destruct (run_prog p (clock s)) as [[messages|e] c1]; [|reflexivity].
    rewrite IH; simpl. rewrite run_pbind.
    destruct (run_prog (invoke_all rest) c1) as [[more|e] c2]; simpl;
      [|reflexivity].
    rewrite for_msg_filter, filter_app, app_assoc. reflexivity.
Qed.

(** The method as one equation: the cutoff is taken from the first read of
    the clock, the producers run on the reads that follow, and the result
    is the sorted selection of what they returned. *)
Lemma get_latest_messages_eq (hours_back : Z) (categories : option (list string))
    (s : State) :
  get_latest_messages hours_back categories s =
  match minus_delta (current (clock s)) hours_back 0 with
  | Raise e => (Raise e, {| self := self s; clock := advance (clock s) |})
  | Ok cutoff_time =>
      match run_prog (invoke_all (data_sources (self s))) (advance (clock s)) with
      | (Ok produced, c') =>
          (Ok (sort_timestamp_reverse
                 (filter (retained cutoff_time categories) produced)),
           {| self := self s; clock := c' |})
      | (Raise e, c') => (Raise e, {| self := self s; clock := c' |})
      end
  end.
Proof.
  unfold get_latest_messages, mbind, call at 1.
  rewrite run_now_minus.
  destruct (minus_delta (current (clock s)) hours_back 0) as [cutoff|e];
    [|reflexivity].
  unfold self_data_sources_items; simpl.
  rewrite for_source_invoke_all; simpl.
  destruct (run_prog _ (advance (clock s))) as [[produced|e] c']; reflexivity.
Qed.

(** ** The sort *)

Lemma insert_desc_perm (x : msg) (l : list msg) :
  Permutation (insert_desc x l) (x :: l).
Proof.
  induction l as [|y l IH]; simpl; [reflexivity|].
  destruct (timestamp y <=? timestamp x); [reflexivity|].
  rewrite IH. apply perm_swap.
Qed.

Lemma sort_timestamp_reverse_perm (l : list msg) :
  Permutation (sort_timestamp_reverse l) l.
Proof.
  induction l as [|x l IH]; simpl; [reflexivity|].
  rewrite insert_desc_perm. now constructor.
Qed.

Lemma insert_desc_sorted (x : msg) (l : list msg) :
  StronglySorted newer_or_equal l ->
  StronglySorted newer_or_equal (insert_desc x l).
Proof.
  induction 1 as [|y l Hs IH Hy]; simpl.
  - repeat constructor.
  - destruct (Z.leb_spec (timestamp y) (timestamp x)) as [Hle|Hgt].
    + constructor; [now constructor|].
      constructor; [exact Hle|].
      eapply Forall_impl; [|exact Hy].
      unfold newer_or_equal; intros; lia.
    + constructor; [exact IH|].
      rewrite (Forall_forall (newer_or_equal y)). intros z Hz.
      apply (Permutation_in _ (insert_desc_perm x l)) in Hz.
      destruct Hz as [<-|Hz].
      * unfold newer_or_equal; lia.
      * rewrite Forall_forall in Hy. now apply Hy.
Qed.

Lemma sort_timestamp_reverse_sorted (l : list msg) :
  StronglySorted newer_or_equal (sort_timestamp_reverse l).
Proof.
  induction l as [|x l IH]; simpl; [constructor|].
  now apply insert_desc_sorted.
Qed.

(** The sort is stable: records carrying one and the same timestamp keep
    the order in which they were collected. *)
Lemma insert_desc_stable (t : datetime) (x : msg) (l : list msg) :
  StronglySorted newer_or_equal l ->
  filter (fun m => timestamp m =? t) (insert_desc x l) =
  filter (fun m => timestamp m =? t) (x :: l).
Proof.
  induction 1 as [|y l Hs IH Hy]; [reflexivity|].
  cbn [insert_desc].
  destruct (Z.leb_spec (timestamp y) (timestamp x)) as [Hle|Hgt];
    [reflexivity|].
  cbn [filter] in *. rewrite IH.
  destruct (Z.eqb_spec (timestamp x) t) as [Hx|Hx]; [|reflexivity].
  destruct (Z.eqb_spec (timestamp y) t) as [Hy'|Hy']; [lia|reflexivity].
Qed.

Lemma sort_timestamp_reverse_stable (t : datetime) (l : list msg) :
  filter (fun m => timestamp m =? t) (sort_timestamp_reverse l) =
  filter (fun m => timestamp m =? t) l.
Proof.
  induction l as [|x l IH]; [reflexivity|].
  cbn [sort_timestamp_reverse fold_right].
  fold (sort_timestamp_reverse l).
  rewrite insert_desc_stable by apply sort_timestamp_reverse_sorted.
  cbn [filter]. now rewrite IH.
Qed.

Lemma strongly_sorted_adjacent (l : list msg) :
  StronglySorted newer_or_equal l ->
  forall i a b,
    nth_error l i = Some a -> nth_error l (S i) = Some b ->
    timestamp b <= timestamp a.
Proof.
  induction 1 as [|y l Hs IH Hy]; intros i a b Ha Hb.
  - destruct i; discriminate.
  - destruct i as [|i]; simpl in Ha, Hb.
    + injection Ha as <-. rewrite Forall_forall in Hy.
      apply Hy. destruct l; [discriminate|]. injection Hb as <-. now left.
    + eapply IH; eassumption.
Qed.

Lemma str_in_In (c : string) (l : list string) :
  str_in c l = true <-> In c l.
Proof.
  unfold str_in. rewrite existsb_exists. split.
  - intros (x & Hx & E). apply String.eqb_eq in E. now subst.
  - intros H. exists c. split; [exact H | apply String.eqb_refl].
Qed.

Lemma retained_iff (cutoff_time : datetime) (categories : option (list string))
    (m : msg) :
  retained cutoff_time categories m = true <->
  cutoff_time <= timestamp m /\
  (categories = None \/ exists cs, categories = Some cs /\ In (category m) cs).
Proof.
  unfold retained. rewrite andb_true_iff, Z.leb_le.
  destruct categories as [cs|].
  - rewrite str_in_In. split.
    + intros [H1 H2]. split; [exact H1|]. right. now exists cs.
    + intros [H1 [H2|(cs' & [= <-] & H2)]]; [discriminate | now split].
  - split; [intros [H1 _]; split; auto | intros [H1 _]; now split].
Qed.

(** The shape of every normal return of the method. *)
Lemma get_latest_messages_returns (hours_back : Z)
    (categories : option (list string)) (s : State) (l : list msg) :
  fst (get_latest_messages hours_back categories s) = Ok l ->
  exists produced c',
    run_prog (invoke_all (data_sources (self s))) (advance (clock s))
      = (Ok produced, c') /\
    l = sort_timestamp_reverse
          (filter (retained (current (clock s) - hours_back * us_per_hour)
                     categories) produced).
Proof.
  rewrite get_latest_messages_eq.
  destruct (minus_delta _ hours_back 0) as [cutoff|e] eqn:E; [|discriminate].
  apply minus_delta_ok in E. destruct E as [E _].
  replace (hours_back * us_per_hour + 0 * us_per_minute)
    with (hours_back * us_per_hour) in E by lia.
  subst cutoff.
  destruct (run_prog _ (advance (clock s))) as [[produced|e] c'];
    [|discriminate].
  cbn [fst]. intros [= <-]. now exists produced, c'.
Qed.

Lemma run_invoke_all_failure (pre post : list (string * Producer))
    (name : string) (p : Producer) (e : exn) : forall c0 msgs c1 c2,
  run_prog (invoke_all pre) c0 = (Ok msgs, c1) ->
  run_prog p c1 = (Raise e, c2) ->
  run_prog (invoke_all (pre ++ (name, p) :: post)) c0 = (Raise e, c2).
Proof.
  induction pre as [|[n q] pre IH]; intros c0 msgs c1 c2 Hpre Hp; simpl in *.
  - injection Hpre as _ <-. rewrite run_pbind, Hp. reflexivity.
  - rewrite run_pbind in *.
    destruct (run_prog q c0) as [[ms|e'] c0']; [|discriminate].
    rewrite run_pbind in *.
    destruct (run_prog (invoke_all pre) c0') as [[more|e'] c0''] eqn:E;
      [|discriminate].
    simpl in Hpre. injection Hpre as _ <-.
    now rewrite (IH _ _ _ _ E Hp).
Qed.

(** ** The claims *)

(** C1: every record of the sequence returned by
    [get_latest_messages(hours_back, categories)] has a timestamp at or
    after the cutoff, which is the first clock reading of the call minus
    [hours_back] hours; and the comparison is inclusive: a record returned
    by a producer whose timestamp is exactly the cutoff (and whose category
    passes the filter) is in the result. *)
Theorem get_latest_messages_window (hours_back : Z)
    (categories : option (list string)) (s : State) (l : list msg) :
  fst (get_latest_messages hours_back categories s) = Ok l ->
  let cutoff_time := current (clock s) - hours_back * us_per_hour in
  (forall m, In m l -> cutoff_time <= timestamp m) /\
  exists produced c',
    run_prog (invoke_all (data_sources (self s))) (advance (clock s))
      = (Ok produced, c') /\
    forall m, In m produced -> timestamp m = cutoff_time ->
      match categories with
      | None => True
      | Some cs => In (category m) cs
      end -> In m l.
Proof.
  intros H cutoff_time.
  destruct (get_latest_messages_returns _ _ _ _ H) as (produced & c' & Hr & ->).
  fold cutoff_time. split.
  - intros m Hm.
    apply (Permutation_in _ (sort_timestamp_reverse_perm _)) in Hm.
    apply filter_In in Hm. destruct Hm as [_ Hm].
    apply retained_iff in Hm. tauto.
  - exists produced, c'. split; [exact Hr|]. intros m Hm Ht Hc.
    apply (Permutation_in _ (Permutation_sym (sort_timestamp_reverse_perm _))).
    apply filter_In. split; [exact Hm|]. apply retained_iff. split; [lia|].
    destruct categories as [cs|]; [right; now exists cs | now left].
Qed.

(** C2: the sequence returned by [get_latest_messages] is sorted by
    timestamp, newest first: for every adjacent pair [(a, b)] of the result,
    [a.timestamp >= b.timestamp]. *)
Theorem get_latest_messages_sorted (hours_back : Z)
    (categories : option (list string)) (s : State) (l : list msg) :
  fst (get_latest_messages hours_back categories s) = Ok l ->
  forall i a b,
    nth_error l i = Some a -> nth_error l (S i) = Some b ->
    timestamp a >= timestamp b.
Proof.
  intros H i a b Ha Hb.
  destruct (get_latest_messages_returns _ _ _ _ H) as (produced & c' & _ & ->).
  apply Z.le_ge.
  eapply strongly_sorted_adjacent;
    [apply sort_timestamp_reverse_sorted | exact Ha | exact Hb].
Qed.

(** C3: a record returned by a producer during the call is in the result
    if and only if its timestamp is at or after the cutoff and either
    [categories] is [None] or the record's category is a member of
    [categories]; the result holds each such record as often as the
    producers returned it. *)
Theorem get_latest_messages_retains_iff (hours_back : Z)
    (categories : option (list string)) (s : State) (l : list msg) :
  fst (get_latest_messages hours_back categories s) = Ok l ->
  exists produced c',
    run_prog (invoke_all (data_sources (self s))) (advance (clock s))
      = (Ok produced, c') /\
    (forall m,
       In m l <->
       In m produced /\
       current (clock s) - hours_back * us_per_hour <= timestamp m /\
       (categories = None \/
        exists cs, categories = Some cs /\ In (category m) cs)) /\
    Permutation l
      (filter (retained (current (clock s) - hours_back * us_per_hour)
                 categories) produced).
Proof.
  intros H.
  destruct (get_latest_messages_returns _ _ _ _ H) as (produced & c' & Hr & ->).
  exists produced, c'. split; [exact Hr|].
  split; [|apply sort_timestamp_reverse_perm].
  intros m. rewrite <- retained_iff, <- filter_In. split.
  - apply Permutation_in, sort_timestamp_reverse_perm.
  - apply Permutation_in, Permutation_sym, sort_timestamp_reverse_perm.
Qed.

(** C7: when a registered producer raises during a call (the cutoff has
    been computed and the producers before it have returned), the call
    raises that same exception: nothing is returned, the failing source is
    not skipped and the sources after it are not called. *)
Theorem producer_failure_aborts (hours_back : Z)
    (categories : option (list string)) (s : State)
    (pre post : list (string * Producer)) (name : string) (p : Producer)
    (cutoff_time : datetime) (c0 c1 c2 : Clock) (msgs : list msg) (e : exn) :
  data_sources (self s) = pre ++ (name, p) :: post ->
  run_prog (now_minus hours_back 0) (clock s) = (Ok cutoff_time, c0) ->
  run_prog (invoke_all pre) c0 = (Ok msgs, c1) ->
  run_prog p c1 = (Raise e, c2) ->
  get_latest_messages hours_back categories s =
  (Raise e, {| self := self s; clock := c2 |}).
Proof.
  intros Hreg Hcut Hpre Hp.
  rewrite run_now_minus in Hcut. injection Hcut as Hcut <-.
  rewrite get_latest_messages_eq, Hcut, Hreg.
  now rewrite (run_invoke_all_failure pre post name p e _ _ _ _ Hpre Hp).
Qed.

(** C8: a call leaves the source registry as it was, whether it returns
    or raises: the same names bound to the same producers, in the same
    order. *)
Theorem get_latest_messages_frame (hours_back : Z)
    (categories : option (list string)) (s : State) :
  data_sources (self (snd (get_latest_messages hours_back categories s))) =
  data_sources (self s).
Proof.
  rewrite get_latest_messages_eq.
  destruct (minus_delta _ hours_back 0) as [cutoff|e]; [|reflexivity].
  destruct (run_prog _ (advance (clock s))) as [[produced|e] c']; reflexivity.
Qed.

Lemma get_latest_messages_frozen (hours_back : Z)
    (categories : option (list string)) (s : State) :
  frozen (clock s) ->
  snd (get_latest_messages hours_back categories s) = s.
Proof.
  intros Hc. rewrite get_latest_messages_eq, (frozen_advance _ Hc).
  destruct (minus_delta _ hours_back 0) as [cutoff|e];
    [|destruct s; reflexivity].
  pose proof (run_prog_frozen (invoke_all (data_sources (self s))) _ Hc) as Hs.
  destruct (run_prog _ (clock s)) as [[produced|e] c']; simpl in *; subst c';
    destruct s; reflexivity.
Qed.

(** C6: when no time passes (the clock stands still), a second call with
    the same arguments right after the first yields what the first one
    yielded: the same records in the same order (or the same exception). *)
Theorem get_latest_messages_repeatable (hours_back : Z)
    (categories : option (list string)) (s : State) :
  frozen (clock s) ->
  fst (get_latest_messages hours_back categories
         (snd (get_latest_messages hours_back categories s))) =
  fst (get_latest_messages hours_back categories s).
Proof.
  intros Hc. now rewrite get_latest_messages_frozen.
Qed.

(** ** The built-in registry on a running clock *)

(** A small delta taken from a POSIX clock: the read succeeds and the
    program goes on with the difference. *)
Lemma run_now_minus_then {A : Type} (hours minutes : Z)
    (k : datetime -> Prog A) (c : Clock) :
  posix c ->
  0 <= hours * us_per_hour + minutes * us_per_minute <= unix_epoch ->
  run_prog (pbind (now_minus hours minutes) k) c =
  run_prog
    (k (reading c 0 - (hours * us_per_hour + minutes * us_per_minute)))
    (advance c).
Proof.
  intros Hc Hd. rewrite run_pbind, run_now_minus.
  rewrite minus_delta_small; [reflexivity | exact Hd | apply (Hc O)].
Qed.

Lemma filter_keep {A : Type} (f : A -> bool) (x : A) (l : list A) :
  f x = true -> filter f (x :: l) = x :: filter f l.
Proof. simpl. now intros ->. Qed.

Lemma filter_drop {A : Type} (f : A -> bool) (x : A) (l : list A) :
  f x = false -> filter f (x :: l) = filter f l.
Proof. simpl. now intros ->. Qed.

Lemma retained_None (cutoff_time : datetime) (m : msg) :
  cutoff_time <= timestamp m -> retained cutoff_time None m = true.
Proof. intros H. apply retained_iff. auto. Qed.

Lemma retained_too_old (cutoff_time : datetime)
    (categories : option (list string)) (m : msg) :
  timestamp m < cutoff_time -> retained cutoff_time categories m = false.
Proof.
  intros H. unfold retained.
  destruct (Z.leb_spec cutoff_time (timestamp m)); [lia | reflexivity].
Qed.

Ltac small_delta := vm_compute; split; discriminate.

Ltac run_step :=
  first [ rewrite run_now_minus_then by first [assumption | small_delta]
        | rewrite run_pbind
        | progress cbn [run_prog app] ].

Ltac stamps :=
  cbn [timestamp technology_record business_record product_record
       finance_record feedback_record] in *;
  unfold us_per_hour, us_per_minute in *; lia.

Ltac sort_step :=
  cbn [sort_timestamp_reverse fold_right insert_desc];
  match goal with
  | |- context [ ?a <=? ?b ] =>
      destruct (Z.leb_spec a b); try (exfalso; stamps)
  end.

(** C9: with the four built-in producers and the default arguments
    [hours_back=24], [categories=None], the call returns exactly five
    records, in this order: the finance record (30 minutes old), the
    business record (1 hour old), the technology record (2 hours old), the
    product record (3 hours old) and the feedback record (4 hours old);
    each age is counted from the clock reading taken when the record was
    built, on a clock that does not run backwards and moves by less than an
    hour during the call. *)
Theorem builtin_default_result (c : Clock) :
  posix c -> steady us_per_hour c ->
  fst (get_latest_messages 24 None {| self := __init__; clock := c |}) =
  Ok [ finance_record (reading c 4 - 30 * us_per_minute);
       business_record (reading c 2 - 1 * us_per_hour);
       technology_record (reading c 1 - 2 * us_per_hour);
       product_record (reading c 3 - 3 * us_per_hour);
       feedback_record (reading c 5 - 4 * us_per_hour) ].
Proof.
  intros Hp Hs.
  rewrite get_latest_messages_eq. cbn [self clock data_sources __init__].
  rewrite minus_delta_small; [| small_delta | apply (Hp O)].
  pose proof (posix_advance _ Hp) as Hp1.
  pose proof (posix_advance _ Hp1) as Hp2.
  pose proof (posix_advance _ Hp2) as Hp3.
  pose proof (posix_advance _ Hp3) as Hp4.
  pose proof (posix_advance _ Hp4) as Hp5.
  cbn [invoke_all].
  unfold _get_latest_news, _get_company_updates, _get_market_data,
    _get_user_messages.
  repeat run_step.
  change (current c) with (reading c 0).
  change (reading (advance c) 0) with (reading c 1).
  change (reading (advance (advance c)) 0) with (reading c 2).
  change (reading (advance (advance (advance c))) 0) with (reading c 3).
  change (reading (advance (advance (advance (advance c)))) 0)
    with (reading c 4).
  change (reading (advance (advance (advance (advance (advance c))))) 0)
    with (reading c 5).
  assert (H01 := Hs 0%nat 1%nat ltac:(lia)).
  assert (H12 := Hs 1%nat 2%nat ltac:(lia)).
  assert (H13 := Hs 1%nat 3%nat ltac:(lia)).
  assert (H24 := Hs 2%nat 4%nat ltac:(lia)).
  assert (H35 := Hs 3%nat 5%nat ltac:(lia)).
  assert (H05 := Hs 0%nat 5%nat ltac:(lia)).
  assert (H34 := Hs 3%nat 4%nat ltac:(lia)).
  cbn [fst]. f_equal.
  rewrite !filter_keep by (apply retained_None; stamps).
  cbn [filter].
  repeat sort_step.
  repeat f_equal; stamps.
Qed.

Lemma minus_hours_back (t hours_back : Z) :
  hours_back <= 0 -> 0 <= t ->
  t - hours_back * us_per_hour < datetime_end ->
  minus_delta t hours_back 0 = Ok (t - hours_back * us_per_hour).
Proof.
  intros Hh Ht Hend.
  unfold minus_delta, mk_timedelta, datetime_sub.
  replace (hours_back * us_per_hour + 0 * us_per_minute)
    with (hours_back * us_per_hour) by lia.
  assert (Hd : Z.abs (hours_back * us_per_hour / us_per_day) <= MAX_DELTA_DAYS).
  { unfold datetime_end, MAXORDINAL, MAX_DELTA_DAYS, us_per_hour, us_per_day in *.
    assert (- 3652059 <= hours_back * 3600000000 / 86400000000 <= 0).
    { split.
      - apply Z.div_le_lower_bound; lia.
      - apply Z.div_le_upper_bound; lia. }
    lia. }
  apply Z.leb_le in Hd. rewrite Hd.
  assert (H1 : (0 <=? t - hours_back * us_per_hour) = true).
  { apply Z.leb_le. unfold us_per_hour. lia. }
  assert (H2 : (t - hours_back * us_per_hour <? datetime_end) = true)
    by (apply Z.ltb_lt; lia).
  now rewrite H1, H2.
Qed.

Lemma minus_hours_overflow (t hours_back : Z) :
  datetime_end <= t - hours_back * us_per_hour ->
  minus_delta t hours_back 0 = Raise OverflowError.
Proof.
  intros H. destruct (minus_delta t hours_back 0) as [r|e] eqn:E.
  - apply minus_delta_ok in E. lia.
  - now rewrite (minus_delta_raises _ _ _ _ E).
Qed.

(** C4, as the code has it: a [hours_back] that is zero or negative is
    not rejected, there is no validation of the argument.  When the cutoff
    [now - hours_back] is a date [datetime] can hold and the producers
    return, the call returns what they produced at or after the cutoff
    (category filter applied), newest first; when the cutoff lies past
    [datetime.max] the call raises [OverflowError]. *)
Theorem nonpositive_hours_back_not_validated (hours_back : Z)
    (categories : option (list string)) (s : State) :
  hours_back <= 0 ->
  0 <= current (clock s) < datetime_end ->
  (current (clock s) - hours_back * us_per_hour < datetime_end ->
   forall produced c',
     run_prog (invoke_all (data_sources (self s))) (advance (clock s))
       = (Ok produced, c') ->
     get_latest_messages hours_back categories s =
     (Ok (sort_timestamp_reverse
            (filter (retained (current (clock s) - hours_back * us_per_hour)
                       categories) produced)),
      {| self := self s; clock := c' |})) /\
  (datetime_end <= current (clock s) - hours_back * us_per_hour ->
   fst (get_latest_messages hours_back categories s) = Raise OverflowError).
Proof.
  intros Hh Ht. split.
  - intros Hend produced c' Hrun.
    rewrite get_latest_messages_eq, minus_hours_back by lia.
    now rewrite Hrun.
  - intros Hend.
    now rewrite get_latest_messages_eq, minus_hours_overflow.
Qed.

(** C10, as the code has it: with the four built-in producers, for every
    [hours_back <= 0] and any [categories] the argument is not validated.
    When the cutoff [now - hours_back] is a date [datetime] can hold
    (before year 10000) the call raises nothing and returns the empty list,
    every built-in record being stamped before the cutoff (on a clock that
    does not run backwards and moves by less than 30 minutes during the
    call); otherwise computing the cutoff raises [OverflowError]. *)
Theorem builtin_nonpositive_hours_back (hours_back : Z)
    (categories : option (list string)) (c : Clock) :
  posix c -> steady (30 * us_per_minute) c ->
  hours_back <= 0 ->
  fst (get_latest_messages hours_back categories
         {| self := __init__; clock := c |}) =
  if current c - hours_back * us_per_hour <? datetime_end
  then Ok [] else Raise OverflowError.
Proof.
  intros Hp Hs Hh.
  pose proof (Hp O) as H0. cbn [reading] in H0.
  assert (Hepoch : 0 <= unix_epoch) by (vm_compute; discriminate).
  destruct (Z.ltb_spec (current c - hours_back * us_per_hour) datetime_end)
    as [Hend|Hend].
  2:{ rewrite get_latest_messages_eq; cbn [self clock].
      now rewrite minus_hours_overflow. }
  rewrite get_latest_messages_eq. cbn [self clock data_sources __init__].
  rewrite minus_hours_back by lia.
  pose proof (posix_advance _ Hp) as Hp1.
  pose proof (posix_advance _ Hp1) as Hp2.
  pose proof (posix_advance _ Hp2) as Hp3.
  pose proof (posix_advance _ Hp3) as Hp4.
  pose proof (posix_advance _ Hp4) as Hp5.
  cbn [invoke_all].
  unfold _get_latest_news, _get_company_updates, _get_market_data,
    _get_user_messages.
  repeat run_step.
  change (current c) with (reading c 0).
  change (reading (advance c) 0) with (reading c 1).
  change (reading (advance (advance c)) 0) with (reading c 2).
  change (reading (advance (advance (advance c))) 0) with (reading c 3).
  change (reading (advance (advance (advance (advance c)))) 0)
    with (reading c 4).
  change (reading (advance (advance (advance (advance (advance c))))) 0)
    with (reading c 5).
  assert (H01 := Hs 0%nat 1%nat ltac:(lia)).
  assert (H02 := Hs 0%nat 2%nat ltac:(lia)).
  assert (H03 := Hs 0%nat 3%nat ltac:(lia)).
  assert (H04 := Hs 0%nat 4%nat ltac:(lia)).
  assert (H05 := Hs 0%nat 5%nat ltac:(lia)).
  cbn [fst]. f_equal.
  rewrite !filter_drop by (apply retained_too_old; stamps).
  reflexivity.
Qed.

(** C5: a registry of two sources, A returning one "technology" record
    stamped 2 hours before the call of A and B one "finance" record stamped
    30 hours before the call of B.  With [hours_back=24] the result is
    exactly the technology record; with [hours_back=48] it is both records,
    the technology record first.  This holds for either order of
    registration, on a clock that does not run backwards and moves by less
    than 6 hours during the call. *)
Theorem two_source_scenario (name_a name_b : string)
    (title_a content_a source_a title_b content_b source_b : string)
    (c : Clock) :
  posix c -> steady (6 * us_per_hour) c ->
  let A := single_record_source 2 title_a content_a source_a "technology" in
  let B := single_record_source 30 title_b content_b source_b "finance" in
  let rec_a ts := Build_msg title_a content_a ts source_a "technology" in
  let rec_b ts := Build_msg title_b content_b ts source_b "finance" in
  let call registry hours_back :=
    fst (get_latest_messages hours_back None
           {| self := {| data_sources := registry |}; clock := c |}) in
  call [(name_a, A); (name_b, B)] 24
    = Ok [rec_a (reading c 1 - 2 * us_per_hour)] /\
  call [(name_a, A); (name_b, B)] 48
    = Ok [rec_a (reading c 1 - 2 * us_per_hour);
          rec_b (reading c 2 - 30 * us_per_hour)] /\
  call [(name_b, B); (name_a, A)] 24
    = Ok [rec_a (reading c 2 - 2 * us_per_hour)] /\
  call [(name_b, B); (name_a, A)] 48
    = Ok [rec_a (reading c 2 - 2 * us_per_hour);
          rec_b (reading c 1 - 30 * us_per_hour)].
Proof.
  intros Hp Hs A B rec_a rec_b call.
  pose proof (posix_advance _ Hp) as Hp1.
  pose proof (posix_advance _ Hp1) as Hp2.
  assert (H01 := Hs 0%nat 1%nat ltac:(lia)).
  assert (H02 := Hs 0%nat 2%nat ltac:(lia)).
  assert (H12 := Hs 1%nat 2%nat ltac:(lia)).
  unfold call, A, B, rec_a, rec_b, single_record_source.
  (split; [| split; [| split]]);
    rewrite get_latest_messages_eq; cbn [self clock data_sources];
    (rewrite minus_delta_small; [| small_delta | apply (Hp O)]);
    cbn [invoke_all]; repeat run_step;
    change (current c) with (reading c 0);
    change (reading (advance c) 0) with (reading c 1);
    change (reading (advance (advance c)) 0) with (reading c 2);
    cbn [fst]; f_equal.
  - rewrite filter_keep by (apply retained_None; stamps).
    rewrite filter_drop by (apply retained_too_old; stamps).
    cbn [filter sort_timestamp_reverse fold_right insert_desc].
    repeat f_equal; stamps.
  - rewrite !filter_keep by (apply retained_None; stamps).
    cbn [filter]. repeat sort_step. repeat f_equal; stamps.
  - rewrite filter_drop by (apply retained_too_old; stamps).
    rewrite filter_keep by (apply retained_None; stamps).
    cbn [filter sort_timestamp_reverse fold_right insert_desc].
    repeat f_equal; stamps.
  - rewrite !filter_keep by (apply retained_None; stamps).
    cbn [filter]. repeat sort_step. repeat f_equal; stamps.
Qed.

(** ** Sample runs *)

Ltac ticks_nonneg := cbn [ticks ticking_clock]; repeat constructor; lia.

Ltac ticking_posix :=
  apply posix_of_ticks;
  [ ticks_nonneg | vm_compute; discriminate | vm_compute; reflexivity ].

Ltac ticking_steady :=
  apply steady_of_ticks; [ ticks_nonneg | vm_compute; reflexivity ].

Lemma get_latest_messages_window_witness :
  fst (get_latest_messages 24 None ticking_state) = Ok ticking_default_result /\
  forall m, In m ticking_default_result ->
    current (clock ticking_state) - 24 * us_per_hour <= timestamp m.
Proof.
  assert (H : fst (get_latest_messages 24 None ticking_state)
              = Ok ticking_default_result) by (vm_compute; reflexivity).
  split.
  - exact H.
  - apply (get_latest_messages_window 24 None ticking_state
             ticking_default_result H).
Defined.

Lemma get_latest_messages_sorted_witness :
  fst (get_latest_messages 24 None ticking_state) = Ok ticking_default_result /\
  forall i a b,
    nth_error ticking_default_result i = Some a ->
    nth_error ticking_default_result (S i) = Some b ->
    timestamp a >= timestamp b.
Proof.
  assert (H : fst (get_latest_messages 24 None ticking_state)
              = Ok ticking_default_result) by (vm_compute; reflexivity).
  split.
  - exact H.
  - exact (get_latest_messages_sorted 24 None ticking_state
             ticking_default_result H).
Defined.

Lemma get_latest_messages_retains_iff_witness :
  fst (get_latest_messages 2 two_categories ticking_state)
    = Ok ticking_filtered_result /\
  exists produced c',
    run_prog (invoke_all (data_sources (self ticking_state)))
      (advance (clock ticking_state)) = (Ok produced, c') /\
    (forall m,
       In m ticking_filtered_result <->
       In m produced /\
       current (clock ticking_state) - 2 * us_per_hour <= timestamp m /\
       (two_categories = None \/
        exists cs, two_categories = Some cs /\ In (category m) cs)) /\
    Permutation ticking_filtered_result
      (filter (retained (current (clock ticking_state) - 2 * us_per_hour)
                 two_categories) produced).
Proof.
  assert (H : fst (get_latest_messages 2 two_categories ticking_state)
              = Ok ticking_filtered_result) by (vm_compute; reflexivity).
  split.
  - exact H.
  - exact (get_latest_messages_retains_iff 2 two_categories ticking_state
             ticking_filtered_result H).
Defined.

Lemma get_latest_messages_repeatable_witness :
  frozen (clock still_state) /\
  fst (get_latest_messages 24 None
         (snd (get_latest_messages 24 None still_state))) =
  fst (get_latest_messages 24 None still_state).
Proof.
  assert (H : frozen (clock still_state)) by reflexivity.
  split.
  - exact H.
  - exact (get_latest_messages_repeatable 24 None still_state H).
Defined.

Lemma producer_failure_aborts_witness :
  let cutoff_time := noon_2026_11_03 - 24 * us_per_hour in
  let c0 := advance ticking_clock in
  let c1 := advance (advance c0) in
  let msgs := [ technology_record (reading ticking_clock 1 - 2 * us_per_hour);
                business_record (reading ticking_clock 2 - 1 * us_per_hour) ] in
  run_prog (now_minus 24 0) (clock broken_state) = (Ok cutoff_time, c0) /\
  run_prog (invoke_all [("news"%string, _get_latest_news)]) c0 = (Ok msgs, c1) /\
  run_prog broken_feed c1 = (Raise (Exception "feed unavailable"), c1) /\
  get_latest_messages 24 None broken_state =
  (Raise (Exception "feed unavailable"),
   {| self := self broken_state; clock := c1 |}).
Proof.
  intros cutoff_time c0 c1 msgs.
  assert (H1 : run_prog (now_minus 24 0) (clock broken_state)
               = (Ok cutoff_time, c0)) by (vm_compute; reflexivity).
  assert (H2 : run_prog (invoke_all [("news"%string, _get_latest_news)]) c0
               = (Ok msgs, c1)) by (vm_compute; reflexivity).
  assert (H3 : run_prog broken_feed c1
               = (Raise (Exception "feed unavailable"), c1))
    by (vm_compute; reflexivity).
  split; [exact H1 | split; [exact H2 | split; [exact H3 |]]].
  exact (producer_failure_aborts 24 None broken_state
           [("news"%string, _get_latest_news)]
           [("market_data"%string, _get_market_data)]
           "broken" broken_feed cutoff_time c0 c1 c1 msgs
           (Exception "feed unavailable") eq_refl H1 H2 H3).
Defined.

Lemma builtin_default_result_witness :
  posix ticking_clock /\ steady us_per_hour ticking_clock /\
  fst (get_latest_messages 24 None {| self := __init__; clock := ticking_clock |}) =
  Ok [ finance_record (reading ticking_clock 4 - 30 * us_per_minute);
       business_record (reading ticking_clock 2 - 1 * us_per_hour);
       technology_record (reading ticking_clock 1 - 2 * us_per_hour);
       product_record (reading ticking_clock 3 - 3 * us_per_hour);
       feedback_record (reading ticking_clock 5 - 4 * us_per_hour) ].
Proof.
  assert (Hp : posix ticking_clock) by ticking_posix.
  assert (Hs : steady us_per_hour ticking_clock) by ticking_steady.
  split; [exact Hp | split; [exact Hs |]].
  exact (builtin_default_result ticking_clock Hp Hs).
Defined.

Lemma two_source_scenario_witness :
  posix ticking_clock /\ steady (6 * us_per_hour) ticking_clock /\
  fst (get_latest_messages 24 None
         {| self :=
              {| data_sources :=
                   [ ("A"%string,
                      single_record_source 2 "release" "v2 is out" "blog"
                        "technology");
                     ("B"%string,
                      single_record_source 30 "rates" "rates unchanged" "wire"
                        "finance") ] |};
            clock := ticking_clock |}) =
  Ok [ Build_msg "release" "v2 is out"
         (reading ticking_clock 1 - 2 * us_per_hour) "blog" "technology" ].
Proof.
  assert (Hp : posix ticking_clock) by ticking_posix.
  assert (Hs : steady (6 * us_per_hour) ticking_clock) by ticking_steady.
  split; [exact Hp | split; [exact Hs |]].
  exact (proj1 (two_source_scenario "A" "B" "release" "v2 is out" "blog"
                  "rates" "rates unchanged" "wire" ticking_clock Hp Hs)).
Defined.

(** C4, as the specification words it, fails: with [hours_back = 0] the
    call on the built-in registry returns (the empty list) and raises
    nothing. *)
Lemma hours_back_zero_is_accepted :
  0 <= 0 /\
  fst (get_latest_messages 0 None still_state) = Ok [] /\
  ~ exists e, fst (get_latest_messages 0 None still_state) = Raise e.
Proof.
  assert (H : fst (get_latest_messages 0 None still_state) = Ok [])
    by (vm_compute; reflexivity).
  split; [lia | split; [exact H |]].
  intros [e He]. rewrite H in He. discriminate.
Qed.

Lemma nonpositive_hours_back_not_validated_witness :
  0 <= 0 /\
  0 <= current (clock still_state) < datetime_end /\
  ((current (clock still_state) - 0 * us_per_hour < datetime_end ->
    forall produced c',
      run_prog (invoke_all (data_sources (self still_state)))
        (advance (clock still_state)) = (Ok produced, c') ->
      get_latest_messages 0 None still_state =
      (Ok (sort_timestamp_reverse
             (filter (retained (current (clock still_state) - 0 * us_per_hour)
                        None) produced)),
       {| self := self still_state; clock := c' |})) /\
   (datetime_end <= current (clock still_state) - 0 * us_per_hour ->
    fst (get_latest_messages 0 None still_state) = Raise OverflowError)).
Proof.
  assert (H0 : 0 <= 0) by lia.
  assert (Ht : 0 <= current (clock still_state) < datetime_end)
    by (vm_compute; split; [discriminate | reflexivity]).
  split; [exact H0 | split; [exact Ht |]].
  exact (nonpositive_hours_back_not_validated 0 None still_state H0 Ht).
Defined.

(** C10, as it is worded, fails: [hours_back = -100000000] puts the cutoff
    in the year 13434, past [datetime.max], and the call raises
    [OverflowError] instead of returning the empty list. *)
Lemma huge_negative_hours_back_overflows :
  -100000000 <= 0 /\
  fst (get_latest_messages (-100000000) None still_state)
    = Raise OverflowError /\
  fst (get_latest_messages (-100000000) None still_state) <> Ok [].
Proof.
  assert (H : fst (get_latest_messages (-100000000) None still_state)
              = Raise OverflowError) by (vm_compute; reflexivity).
  split; [lia | split; [exact H |]].
  rewrite H. discriminate.
Qed.

Lemma builtin_nonpositive_hours_back_witness :
  posix ticking_clock /\ steady (30 * us_per_minute) ticking_clock /\
  -3 <= 0 /\
  fst (get_latest_messages (-3) None
         {| self := __init__; clock := ticking_clock |}) =
  if current ticking_clock - -3 * us_per_hour <? datetime_end
  then Ok [] else Raise OverflowError.
Proof.
  assert (Hp : posix ticking_clock) by ticking_posix.
  assert (Hs : steady (30 * us_per_minute) ticking_clock) by ticking_steady.
  assert (Hh : -3 <= 0) by lia.
  split; [exact Hp | split; [exact Hs | split; [exact Hh |]]].
  exact (builtin_nonpositive_hours_back (-3) None ticking_clock Hp Hs Hh).
Defined.

(** * Further properties of the aggregation *)

(** ** Selecting from a sorted list *)

Lemma insert_desc_front (x : msg) (l : list msg) :
  Forall (newer_or_equal x) l -> insert_desc x l = x :: l.
Proof.
  destruct l as [|y l]; [reflexivity|].
  intros H. apply Forall_inv in H. unfold newer_or_equal in H. simpl.
  destruct (Z.leb_spec (timestamp y) (timestamp x)); [reflexivity | lia].
Qed.

Lemma filter_insert_desc (f : msg -> bool) (x : msg) (l : list msg) :
  StronglySorted newer_or_equal l ->
  filter f (insert_desc x l) =
  if f x then insert_desc x (filter f l) else filter f l.
Proof.
  induction 1 as [|y l Hs IH Hy].
  - simpl. destruct (f x); reflexivity.
  - cbn [insert_desc].
    destruct (Z.leb_spec (timestamp y) (timestamp x)) as [Hle|Hgt].
    + cbn [filter]. destruct (f x); [|reflexivity].
      rewrite insert_desc_front; [reflexivity|].
      apply Forall_forall. intros z Hz.
      assert (Hz' : In z (y :: l)).
      { destruct (f y); [|now right; apply filter_In in Hz].
        destruct Hz as [<-|Hz]; [now left | right; now apply filter_In in Hz]. }
      unfold newer_or_equal. destruct Hz' as [<-|Hz']; [exact Hle|].
      rewrite Forall_forall in Hy. specialize (Hy z Hz').
      unfold newer_or_equal in Hy. lia.
    + cbn [filter]. rewrite IH.
      destruct (f y), (f x); try reflexivity.
      cbn [insert_desc].
      destruct (Z.leb_spec (timestamp y) (timestamp x)); [lia | reflexivity].
Qed.

(** Selecting before or after the sort gives the same list. *)
Lemma filter_sort_timestamp_reverse (f : msg -> bool) (l : list msg) :
  filter f (sort_timestamp_reverse l) = sort_timestamp_reverse (filter f l).
Proof.
  induction l as [|x l IH]; [reflexivity|].
  cbn [sort_timestamp_reverse fold_right]. fold (sort_timestamp_reverse l).
  rewrite filter_insert_desc by apply sort_timestamp_reverse_sorted.
  cbn [filter]. destruct (f x); rewrite IH; reflexivity.
Qed.

Lemma filter_filter {A : Type} (f g : A -> bool) (l : list A) :
  filter f (filter g l) = filter (fun x => f x && g x) l.
Proof.
  induction l as [|x l IH]; [reflexivity|]. simpl.
  destruct (g x); simpl; [destruct (f x); simpl; now rewrite IH|].
  rewrite andb_false_r. exact IH.
Qed.

(** Whenever the clock reads a valid date and the cutoff is one too, the
    cutoff is computed without error. *)
Lemma minus_hours_representable (t hours_back : Z) :
  0 <= t < datetime_end ->
  0 <= t - hours_back * us_per_hour < datetime_end ->
  minus_delta t hours_back 0 = Ok (t - hours_back * us_per_hour).
Proof.
  intros Ht Hc.
  unfold minus_delta, mk_timedelta, datetime_sub.
  replace (hours_back * us_per_hour + 0 * us_per_minute)
    with (hours_back * us_per_hour) by lia.
  assert (Hd : Z.abs (hours_back * us_per_hour / us_per_day) <= MAX_DELTA_DAYS).
  { unfold datetime_end, MAXORDINAL, MAX_DELTA_DAYS, us_per_hour, us_per_day in *.
    assert (- 3652059 <= hours_back * 3600000000 / 86400000000 <= 3652059).
    { split.
      - apply Z.div_le_lower_bound; lia.
      - apply Z.div_le_upper_bound; lia. }
    lia. }
  apply Z.leb_le in Hd. rewrite Hd.
  assert (H1 : (0 <=? t - hours_back * us_per_hour) = true)
    by (apply Z.leb_le; lia).
  assert (H2 : (t - hours_back * us_per_hour <? datetime_end) = true)
    by (apply Z.ltb_lt; lia).
  now rewrite H1, H2.
Qed.

Lemma minus_hours_unrepresentable (t hours_back : Z) :
  t - hours_back * us_per_hour < 0 \/
  datetime_end <= t - hours_back * us_per_hour ->
  minus_delta t hours_back 0 = Raise OverflowError.
Proof.
  intros H. destruct (minus_delta t hours_back 0) as [r|e] eqn:E.
  - apply minus_delta_ok in E. lia.
  - now rewrite (minus_delta_raises _ _ _ _ E).
Qed.

(** The outcome of a call, without the final state. *)
Lemma get_latest_messages_outcome (hours_back : Z)
    (categories : option (list string)) (s : State) :
  fst (get_latest_messages hours_back categories s) =
  match minus_delta (current (clock s)) hours_back 0 with
  | Raise e => Raise e
  | Ok cutoff_time =>
      match fst (run_prog (invoke_all (data_sources (self s)))
                   (advance (clock s))) with
      | Ok produced =>
          Ok (sort_timestamp_reverse
                (filter (retained cutoff_time categories) produced))
      | Raise e => Raise e
      end
  end.
Proof.
  rewrite get_latest_messages_eq.
  destruct (minus_delta _ hours_back 0) as [cutoff|e]; [|reflexivity].
  destruct (run_prog _ (advance (clock s))) as [[produced|e] c']; reflexivity.
Qed.


(** ** How the arguments compose *)

(** X1: narrowing the window selects from the wider result.  On the same
    object and clock, the call for [h1] hours, [0 <= h1 <= h2], returns the
    records of the result for [h2] hours that lie at or after the cutoff of
    [h1], in the same order. *)
Theorem narrower_window_selects (h1 h2 : Z) (categories : option (list string))
    (s : State) (wide : list msg) :
  0 <= h1 <= h2 ->
  current (clock s) < datetime_end ->
  fst (get_latest_messages h2 categories s) = Ok wide ->
  fst (get_latest_messages h1 categories s) =
  Ok (filter (fun m => current (clock s) - h1 * us_per_hour <=? timestamp m)
        wide).
Proof.
  intros Hh Ht. rewrite !get_latest_messages_outcome.
  destruct (minus_delta _ h2 0) as [c2|e] eqn:E2; [|discriminate].
  apply minus_delta_ok in E2. destruct E2 as [E2 R2].
  rewrite minus_hours_representable by (unfold us_per_hour in *; lia).
  destruct (fst (run_prog _ (advance (clock s)))) as [produced|e];
    [|discriminate].
  intros [= <-]. f_equal.
  rewrite filter_sort_timestamp_reverse, filter_filter. f_equal.
  apply filter_ext. intros m. unfold retained.
  destruct (Z.leb_spec (current (clock s) - h1 * us_per_hour) (timestamp m));
    destruct (Z.leb_spec c2 (timestamp m)); try reflexivity.
  unfold us_per_hour, us_per_minute in *. lia.
Qed.

(** X2: the category filter selects from the unfiltered result.  A call
    with [categories=cs] returns the records of the result for
    [categories=None] whose category is in [cs], in the same order. *)
Theorem category_filter_selects (hours_back : Z) (cs : list string)
    (s : State) (everything : list msg) :
  fst (get_latest_messages hours_back None s) = Ok everything ->
  fst (get_latest_messages hours_back (Some cs) s) =
  Ok (filter (fun m => str_in (category m) cs) everything).
Proof.
  rewrite !get_latest_messages_outcome.
  destruct (minus_delta _ hours_back 0) as [cutoff|e]; [|discriminate].
  destruct (fst (run_prog _ (advance (clock s)))) as [produced|e];
    [|discriminate].
  intros [= <-]. f_equal.
  rewrite filter_sort_timestamp_reverse, filter_filter. f_equal.
  apply filter_ext. intros m. unfold retained.
  rewrite andb_true_r. apply andb_comm.
Qed.

(** X3: an empty allow-list is not "no filter".  Whenever the call with
    [categories=None] returns, the call with [categories=[]] returns the
    empty list. *)
Theorem empty_category_list_selects_nothing (hours_back : Z) (s : State)
    (everything : list msg) :
  fst (get_latest_messages hours_back None s) = Ok everything ->
  fst (get_latest_messages hours_back (Some []) s) = Ok [].
Proof.
  rewrite !get_latest_messages_outcome.
  destruct (minus_delta _ hours_back 0) as [cutoff|e]; [|discriminate].
  destruct (fst (run_prog _ (advance (clock s)))) as [produced|e];
    [|discriminate].
  intros _. f_equal.
  replace (filter (retained cutoff (Some [])) produced) with (@nil msg);
    [reflexivity|].
  induction produced as [|m l IH]; [reflexivity|].
  simpl. unfold retained at 1. cbn [str_in existsb].
  now rewrite andb_false_r.
Qed.

(** X4: ties keep the order of collection.  Among the returned records
    that carry one and the same timestamp, the order is the one in which
    the producers returned them (registry order, then the order inside a
    producer's list). *)
Theorem ties_keep_collection_order (hours_back : Z)
    (categories : option (list string)) (s : State) (l : list msg) :
  fst (get_latest_messages hours_back categories s) = Ok l ->
  exists produced c',
    run_prog (invoke_all (data_sources (self s))) (advance (clock s))
      = (Ok produced, c') /\
    forall t,
      filter (fun m => timestamp m =? t) l =
      filter (fun m => timestamp m =? t)
        (filter (retained (current (clock s) - hours_back * us_per_hour)
                   categories) produced).
Proof.
  intros H.
  destruct (get_latest_messages_returns _ _ _ _ H) as (produced & c' & Hr & ->).
  exists produced, c'. split; [exact Hr|].
  intros t. apply sort_timestamp_reverse_stable.
Qed.

(** ** Errors *)

(** X5: a cutoff that [datetime] cannot hold.  When [now - hours_back]
    falls before [datetime.min] or after [datetime.max], the call raises
    [OverflowError] after its single read of the clock, whatever the
    registry holds: no producer is reached. *)
Theorem unrepresentable_cutoff_raises (hours_back : Z)
    (categories : option (list string)) (s : State) :
  current (clock s) - hours_back * us_per_hour < 0 \/
  datetime_end <= current (clock s) - hours_back * us_per_hour ->
  get_latest_messages hours_back categories s =
  (Raise OverflowError, {| self := self s; clock := advance (clock s) |}).
Proof.
  intros H.
  now rewrite get_latest_messages_eq, minus_hours_unrepresentable.
Qed.


(** ** The built-in registry for any window *)

(** What the four built-in producers return on a POSIX clock, in call
    order; [c] is the clock as the first of them finds it. *)
Lemma builtin_produced (c : Clock) :
  posix c ->
  run_prog (invoke_all (data_sources __init__)) c =
  (Ok [ technology_record (reading c 0 - 2 * us_per_hour);
        business_record (reading c 1 - 1 * us_per_hour);
        product_record (reading c 2 - 3 * us_per_hour);
        finance_record (reading c 3 - 30 * us_per_minute);
        feedback_record (reading c 4 - 4 * us_per_hour) ],
   advance (advance (advance (advance (advance c))))).
Proof.
  intros Hp.
  pose proof (posix_advance _ Hp) as Hp1.
  pose proof (posix_advance _ Hp1) as Hp2.
  pose proof (posix_advance _ Hp2) as Hp3.
  pose proof (posix_advance _ Hp3) as Hp4.
  cbn [data_sources __init__ invoke_all].
  unfold _get_latest_news, _get_company_updates, _get_market_data,
    _get_user_messages.
  repeat run_step.
  change (reading (advance c) 0) with (reading c 1).
  change (reading (advance (advance c)) 0) with (reading c 2).
  change (reading (advance (advance (advance c))) 0) with (reading c 3).
  change (reading (advance (advance (advance (advance c)))) 0)
    with (reading c 4).
  repeat f_equal; unfold us_per_hour, us_per_minute; lia.
Qed.

(** X7: the built-in registry for every window and filter.  On a clock
    that does not run backwards and moves by less than an hour during the
    call, for every [hours_back] whose cutoff is a date [datetime] can hold
    and every [categories], the result is the selection (window and
    category test) from the five built-in records in the fixed order
    finance, business, technology, product, feedback. *)
Theorem builtin_result_for_any_window (hours_back : Z)
    (categories : option (list string)) (c : Clock) :
  posix c -> steady us_per_hour c ->
  0 <= current c - hours_back * us_per_hour < datetime_end ->
  fst (get_latest_messages hours_back categories
         {| self := __init__; clock := c |}) =
  Ok (filter (retained (current c - hours_back * us_per_hour) categories)
        [ finance_record (reading c 4 - 30 * us_per_minute);
          business_record (reading c 2 - 1 * us_per_hour);
          technology_record (reading c 1 - 2 * us_per_hour);
          product_record (reading c 3 - 3 * us_per_hour);
          feedback_record (reading c 5 - 4 * us_per_hour) ]).
Proof.
  intros Hp Hs Hc.
  assert (Hepoch : 0 <= unix_epoch) by (vm_compute; discriminate).
  pose proof (Hp O) as H0. cbn [reading] in H0.
  rewrite get_latest_messages_outcome. cbn [self clock].
  rewrite minus_hours_representable by lia.
  rewrite (builtin_produced (advance c) (posix_advance _ Hp)). cbn [fst].
  f_equal. rewrite <- filter_sort_timestamp_reverse. f_equal.
  change (reading (advance c) 0) with (reading c 1).
  change (reading (advance c) 1) with (reading c 2).
  change (reading (advance c) 2) with (reading c 3).
  change (reading (advance c) 3) with (reading c 4).
  change (reading (advance c) 4) with (reading c 5).
  assert (H12 := Hs 1%nat 2%nat ltac:(lia)).
  assert (H13 := Hs 1%nat 3%nat ltac:(lia)).
  assert (H24 := Hs 2%nat 4%nat ltac:(lia)).
  assert (H35 := Hs 3%nat 5%nat ltac:(lia)).
  assert (H34 := Hs 3%nat 4%nat ltac:(lia)).
  repeat sort_step. reflexivity.
Qed.

(** X8: categories none of the built-in records carries.  With the
    built-in registry, whatever the window and however the clock moves, a
    [categories] list that names none of technology, business, product,
    finance and feedback gives the empty list. *)
Theorem builtin_unknown_categories (hours_back : Z) (cs : list string)
    (c : Clock) :
  posix c ->
  0 <= current c - hours_back * us_per_hour < datetime_end ->
  (forall tag, In tag cs ->
     ~ In tag ["technology"; "business"; "product"; "finance"; "feedback"]
       %string) ->
  fst (get_latest_messages hours_back (Some cs)
         {| self := __init__; clock := c |}) = Ok [].
Proof.
  intros Hp Hc Hcs.
  assert (Hepoch : 0 <= unix_epoch) by (vm_compute; discriminate).
  pose proof (Hp O) as H0. cbn [reading] in H0.
  rewrite get_latest_messages_outcome. cbn [self clock].
  rewrite minus_hours_representable by lia.
  rewrite (builtin_produced (advance c) (posix_advance _ Hp)). cbn [fst].
  assert (Hout : forall tag,
             In tag ["technology"; "business"; "product"; "finance";
                     "feedback"]%string ->
             str_in tag cs = false).
  { intros tag Htag. destruct (str_in tag cs) eqn:E; [|reflexivity].
    apply str_in_In in E. now destruct (Hcs tag E). }
  assert (Hdrop : forall m,
             In (category m) ["technology"; "business"; "product"; "finance";
                              "feedback"]%string ->
             retained (current c - hours_back * us_per_hour) (Some cs) m
             = false).
  { intros m Hm. unfold retained. rewrite (Hout _ Hm). apply andb_false_r. }
  rewrite !filter_drop by (apply Hdrop; cbn; tauto).
  reflexivity.
Qed.

(** * Properties of the demo class *)

Section DemoProperties.

Context {F : Demo.Framework}.

(** ** Construction *)

Lemma init_incomplete (p : Demo.Process) :
  config_complete (Demo.environ p) = false ->
  Demo.__init__ p =
  (Demo.Raises (Demo.ValueError Demo.config_error),
   with_stdout p (Demo.stdout p ++ [config_banner (Demo.environ p)])).
Proof.
  intros H. unfold Demo.__init__.
  unfold Demo.bind at 1 2 3 4 5. unfold Demo.getenv, Demo.print, Demo.write.
  unfold config_complete in H. cbn [Demo.environ]. rewrite H.
  reflexivity.
Qed.

(** X9: an incomplete configuration is refused before any client is
    built.  When one of [AZURE_OPENAI_ENDPOINT], [AZURE_OPENAI_API_KEY],
    [AZURE_OPENAI_DEPLOYMENT_NAME] is unset or empty, [AzureRAGDemo()]
    raises [ValueError] with the fixed text, having printed one line and
    made no call to the framework; [AZURE_OPENAI_API_VERSION] is not
    looked at. *)
Theorem init_rejects_incomplete_config (p : Demo.Process) :
  config_complete (Demo.environ p) = false ->
  Demo.__init__ p =
  (Demo.Raises (Demo.ValueError Demo.config_error),
   with_stdout p (Demo.stdout p ++ [config_banner (Demo.environ p)])).
Proof. exact (init_incomplete p). Qed.

Ltac demo_unfold :=
  unfold Demo._setup_rag_chain;
  unfold Demo.bind, Demo.ret, Demo.raise, Demo.try_except, Demo.framework,
    Demo.in_process, Demo.getenv, Demo.getenv_default, Demo.print, Demo.write,
    Demo.get_self, Demo.set_vector_store, Demo.set_retriever;
  cbn [fst snd Demo.pclock Demo.environ Demo.stdout Demo.stdin Demo.services
       Demo.llm Demo.embeddings Demo.message_retriever Demo.vector_store
       Demo.retriever Demo.combine_docs_chain with_stdout].

Ltac demo_simpl :=
  cbn [fst snd Demo.pclock Demo.environ Demo.stdout Demo.stdin Demo.services
       Demo.llm Demo.embeddings Demo.message_retriever Demo.vector_store
       Demo.retriever Demo.combine_docs_chain with_stdout with_knowledge_base
       after_retrieval] in *.

Ltac demo_case :=
  match goal with
  | |- context [ match ?x with (_, _) => _ end ] =>
      lazymatch x with
      | context [ match _ with (_, _) => _ end ] => fail
      | _ => destruct x as [[?|?] ?]
      end
  end;
  cbn [fst snd Demo.pclock Demo.environ Demo.stdout Demo.stdin Demo.services
       Demo.llm Demo.embeddings Demo.message_retriever Demo.vector_store
       Demo.retriever Demo.combine_docs_chain with_stdout].

(** X10: the API key goes to the console.  Whatever the environment holds
    and however construction ends, the first thing [AzureRAGDemo()] writes
    is one line that carries the endpoint, the API key, the deployment name
    and the API version in clear, [None] standing for an unset one. *)
Theorem init_prints_the_api_key (p : Demo.Process) :
  exists more,
    Demo.stdout (snd (Demo.__init__ p)) =
    Demo.stdout p ++ config_banner (Demo.environ p) :: more.
Proof.
  unfold Demo.__init__. demo_unfold.
  destruct (negb _).
  - now exists [].
  - repeat demo_case;
      first [ now exists []
            | now eexists [_]; rewrite <- app_assoc ].
Qed.

Lemma init_no_knowledge_base (p p1 : Demo.Process) (d : Demo.AzureRAGDemo) :
  Demo.__init__ p = (Demo.Returns d, p1) ->
  Demo.retriever d = None /\ Demo.vector_store d = None /\
  Demo.message_retriever d = new_MessageRetriever.
Proof.
  unfold Demo.__init__. demo_unfold.
  destruct (negb _); [discriminate|].
  repeat demo_case; try discriminate; intros [= <- <-]; auto.
Qed.

(** X11: a new demo has no knowledge base.  Right after construction,
    [chat_with_latest_info] returns the fixed hint and
    [get_relevant_context] the empty list, for every question, without a
    call to the framework and without output. *)
Theorem fresh_demo_has_no_knowledge_base (p p1 : Demo.Process)
    (d : Demo.AzureRAGDemo) (question : string) (k : Z) :
  Demo.__init__ p = (Demo.Returns d, p1) ->
  Demo.chat_with_latest_info question (d, p1)
    = (Demo.Returns Demo.no_knowledge_base, (d, p1)) /\
  Demo.get_relevant_context question k (d, p1) = (Demo.Returns [], (d, p1)).
Proof.
  intros H. apply init_no_knowledge_base in H. destruct H as (Hr & _ & _).
  unfold Demo.chat_with_latest_info, Demo.get_relevant_context. demo_unfold.
  rewrite Hr. split; reflexivity.
Qed.

(** ** Updating the knowledge base *)

Lemma get_latest_messages_self (hours_back : Z)
    (categories : option (list string)) (s : State) :
  self (snd (get_latest_messages hours_back categories s)) = self s.
Proof.
  rewrite get_latest_messages_eq.
  destruct (minus_delta _ hours_back 0) as [cutoff|e]; [|reflexivity].
  destruct (run_prog _ (advance (clock s))) as [[produced|e] c']; reflexivity.
Qed.

Lemma for_msg_document_map (latest_messages : list msg) :
  forall documents,
  Demo.for_msg_document latest_messages documents =
  documents ++ map document_of latest_messages.
Proof.
  induction latest_messages as [|m rest IH]; intros acc; simpl.
  - now rewrite app_nil_r.
  - rewrite IH, <- app_assoc. reflexivity.
Qed.

Ltac run_retriever d p hours_back categories H :=
  unfold Demo.update_knowledge_base,
    Demo.message_retriever_get_latest_messages;
  demo_unfold;
  pose proof (get_latest_messages_self hours_back categories
                (retriever_state d p)) as Hself;
  unfold retriever_state in *;
  destruct (get_latest_messages hours_back categories
              {| self := Demo.message_retriever d; clock := Demo.pclock p |})
    as [res st];
  cbn [fst snd self] in H, Hself; subst res;
  rewrite Hself; destruct d; demo_simpl.

(** X12: nothing found, nothing changed.  When the retriever returns no
    message, [update_knowledge_base] prints two lines and returns: vector
    store, retriever and services are as before, no framework call is
    made. *)
Theorem update_without_messages (hours_back : Z)
    (categories : option (list string)) (d : Demo.AzureRAGDemo)
    (p : Demo.Process) :
  fst (get_latest_messages hours_back categories (retriever_state d p))
    = Ok [] ->
  Demo.update_knowledge_base hours_back categories (d, p) =
  (Demo.Returns tt,
   (d, after_retrieval p
         (snd (get_latest_messages hours_back categories
                 (retriever_state d p)))
         [searching_line hours_back; nothing_found_line]
         (Demo.services p))).
Proof.
  intros H. run_retriever d p hours_back categories H.
  now rewrite <- app_assoc.
Qed.

(** X13: a failure of the retriever passes through.
    [update_knowledge_base] catches nothing: when the retriever raises,
    the call raises the same exception after its first line of output,
    with vector store, retriever and services as before. *)
Theorem update_passes_retrieval_failure (hours_back : Z)
    (categories : option (list string)) (d : Demo.AzureRAGDemo)
    (p : Demo.Process) (e : exn) :
  fst (get_latest_messages hours_back categories (retriever_state d p))
    = Raise e ->
  Demo.update_knowledge_base hours_back categories (d, p) =
  (Demo.Raises (Demo.Retrieval e),
   (d, after_retrieval p
         (snd (get_latest_messages hours_back categories
                 (retriever_state d p)))
         [searching_line hours_back]
         (Demo.services p))).
Proof.
  intros H. run_retriever d p hours_back categories H.
  reflexivity.
Qed.

(** X14: what a successful update hands to the framework.  When the
    retriever returns the messages [l] (at least one), the splitter
    receives one document per message, in the order of [l] (newest first),
    each with title and content in its text and title, ISO timestamp,
    source and category in its metadata; the vector store is built from
    the splitter's output with the embeddings of the object under the
    collection name "latest_messages"; the object then holds that store and
    its retriever, and four lines have been printed. *)
Theorem update_builds_knowledge_base (hours_back : Z)
    (categories : option (list string)) (d : Demo.AzureRAGDemo)
    (p : Demo.Process)
    (found : list msg) (chunks : list Demo.Document)
    (v : Demo.VectorStore) (r : Demo.Retriever)
    (w1 w2 w3 : Demo.Services) :
  fst (get_latest_messages hours_back categories (retriever_state d p))
    = Ok found ->
  found <> [] ->
  Demo.split_documents (map document_of found) (Demo.services p)
    = (Demo.Returns chunks, w1) ->
  Demo.Chroma_from_documents chunks (Demo.embeddings d) "latest_messages" w1
    = (Demo.Returns v, w2) ->
  Demo.as_retriever v w2 = (Demo.Returns r, w3) ->
  Demo.update_knowledge_base hours_back categories (d, p) =
  (Demo.Returns tt,
   (with_knowledge_base d (Some v) (Some r),
    after_retrieval p
      (snd (get_latest_messages hours_back categories (retriever_state d p)))
      [searching_line hours_back; found_line (List.length found);
       building_line; done_line]
      w3)).
Proof.
  intros H Hne Hsplit Hstore Hretr.
  run_retriever d p hours_back categories H.
  destruct found as [|m rest]; [congruence|].
  rewrite for_msg_document_map. cbn [app]. demo_simpl.
  rewrite Hsplit. demo_simpl. rewrite Hstore. demo_simpl.
  rewrite Hretr. demo_simpl.
  unfold found_line. now rewrite <- !app_assoc.
Qed.

(** X15: a failed build keeps the previous knowledge base.  When the
    splitter or the construction of the vector store raises, the call
    raises that exception and the object keeps the vector store and the
    retriever it had. *)
Theorem failed_build_keeps_knowledge_base (hours_back : Z)
    (categories : option (list string)) (d : Demo.AzureRAGDemo)
    (p : Demo.Process) (found : list msg) (e : Demo.pyexn) :
  fst (get_latest_messages hours_back categories (retriever_state d p))
    = Ok found ->
  found <> [] ->
  (exists w, Demo.split_documents (map document_of found) (Demo.services p)
             = (Demo.Raises e, w)) \/
  (exists chunks w1 w2,
     Demo.split_documents (map document_of found) (Demo.services p)
       = (Demo.Returns chunks, w1) /\
     Demo.Chroma_from_documents chunks (Demo.embeddings d) "latest_messages" w1
       = (Demo.Raises e, w2)) ->
  exists p',
    Demo.update_knowledge_base hours_back categories (d, p)
      = (Demo.Raises e, (d, p')).
Proof.
  intros H Hne Hfail.
  run_retriever d p hours_back categories H.
  destruct found as [|m rest]; [congruence|].
  rewrite for_msg_document_map. cbn [app]. demo_simpl.
  destruct Hfail as [(w & Hsplit) | (chunks & w1 & w2 & Hsplit & Hstore)].
  - rewrite Hsplit. eexists. reflexivity.
  - rewrite Hsplit. demo_simpl. rewrite Hstore.
    eexists. reflexivity.
Qed.

(** ** The chat loop *)

Lemma chat_turn_at_end_of_input (s : Demo.AzureRAGDemo * Demo.Process) :
  Demo.stdin (snd s) = [] ->
  Demo.chat_turn s =
  (Demo.Raises Demo.EOFError,
   (fst s, with_stdout (snd s) (Demo.stdout (snd s) ++ [prompt_text]))).
Proof.
  intros H. unfold Demo.chat_turn, Demo.input, with_stdout. demo_unfold.
  rewrite H. reflexivity.
Qed.

(** X16: the loop cannot leave at the end of input.  Once the terminal
    has nothing more to deliver (a closed pipe, a file read to its end),
    every [input()] raises [EOFError], the handler for [Exception] prints
    it and the loop goes on: it is still running after any number of
    turns. *)
Theorem chat_loop_spins_at_end_of_input (fuel : nat) :
  forall s : Demo.AzureRAGDemo * Demo.Process,
  Demo.stdin (snd s) = [] ->
  Demo.chat_loop fuel s = None.
Proof.
  induction fuel as [|fuel IH]; intros s H; [reflexivity|].
  cbn [Demo.chat_loop]. rewrite (chat_turn_at_end_of_input s H).
  demo_unfold. apply IH. exact H.
Qed.

Lemma goes_on_bind {S A : Type} (m : Demo.Eff S A)
    (f : A -> Demo.Eff S Demo.turn) :
  (forall a, goes_on (f a)) -> goes_on (Demo.bind m f).
Proof.
  intros Hf s s'. unfold Demo.bind.
  destruct (m s) as [[a|e] s1]; [apply Hf | discriminate].
Qed.

Lemma goes_on_continue {S : Type} :
  goes_on (@Demo.ret S Demo.turn Demo.Continue).
Proof. intros s s'. discriminate. Qed.

Lemma chat_turn_break (s s' : Demo.AzureRAGDemo * Demo.Process) :
  Demo.chat_turn s = (Demo.Returns Demo.Break, s') ->
  exists out, Demo.stdout (snd s') = out ++ [goodbye_line].
Proof.
  unfold Demo.chat_turn. unfold Demo.bind at 1.
  destruct (Demo.in_process _ s) as [[line|e] s1]; [|discriminate].
  destruct (str_in _ _).
  - demo_unfold. intros [= <-]. now eexists.
  - intros H. exfalso. revert H.
    repeat match goal with
           | |- context [ if ?b then _ else _ ] => destruct b
           end;
      repeat first [ apply goes_on_continue
                   | apply goes_on_bind; intros ? ].
Qed.

(** X17: how the loop ends.  Whenever the loop ends it ends normally and
    the last thing on the console is a goodbye: the one for a quit word or
    the one for an interrupt.  No exception raised inside a turn (by the
    retriever, the framework or the terminal) comes out of the loop. *)
Theorem chat_loop_ends_with_goodbye (fuel : nat) :
  forall (s s' : Demo.AzureRAGDemo * Demo.Process) (r : Demo.outcome unit),
  Demo.chat_loop fuel s = Some (r, s') ->
  r = Demo.Returns tt /\
  exists out,
    Demo.stdout (snd s') = out ++ [goodbye_line] \/
    Demo.stdout (snd s') = out ++ [interrupted_goodbye_line].
Proof.
  induction fuel as [|fuel IH]; intros s s' r H; [discriminate|].
  cbn [Demo.chat_loop] in H.
  destruct (Demo.chat_turn s) as [[[|]|e] s1] eqn:E.
  - injection H as <- <-. split; [reflexivity|].
    destruct (chat_turn_break _ _ E) as [out Hout]. exists out. now left.
  - eapply IH; exact H.
  - destruct e; try (revert H; demo_unfold; intros H; eapply IH; exact H).
    revert H. demo_unfold. intros [= <- <-]. split; [reflexivity|].
    eexists. right. reflexivity.
Qed.

(** ** [main] *)

(** X18: [main] with an incomplete configuration.  It prints the line
    of the constructor, the configuration error with its text and the six
    lines of help, and returns normally; it builds no client, reads no
    input and does so whatever the terminal holds. *)
Theorem main_reports_incomplete_config (fuel : nat) (p : Demo.Process) :
  config_complete (Demo.environ p) = false ->
  Demo.main fuel p =
  Some (Demo.Returns tt,
        with_stdout p
          (Demo.stdout p ++
           config_banner (Demo.environ p) :: config_help Demo.config_error)).
Proof.
  intros H. unfold Demo.main. rewrite (init_incomplete p H).
  cbn [Demo.is_ValueError]. unfold with_stdout, config_help. demo_unfold.
  cbn [Demo.exc_str]. rewrite <- !app_assoc. reflexivity.
Qed.

(** X19: no [Exception] leaves [main].  Whatever the constructor, the
    first update or the loop raises, [main] prints it and returns; the
    only thing it lets through is what is not an [Exception], a
    [KeyboardInterrupt]. *)
Theorem main_lets_no_Exception_out (fuel : nat) (p p' : Demo.Process)
    (e : Demo.pyexn) :
  Demo.main fuel p = Some (Demo.Raises e, p') ->
  Demo.is_Exception e = false.
Proof.
  unfold Demo.main. cbv zeta.
  destruct (Demo.__init__ p) as [[demo|e0] p1].
  - destruct (Demo.start_interactive_chat fuel (demo, p1))
      as [[[u|e0] s1]|]; [discriminate | | discriminate].
    destruct (Demo.is_ValueError e0); [demo_unfold; discriminate|].
    destruct (Demo.is_Exception e0) eqn:E; [demo_unfold; discriminate|].
    unfold Demo.raise. intros [= <- _]. exact E.
  - destruct (Demo.is_ValueError e0); [demo_unfold; discriminate|].
    destruct (Demo.is_Exception e0) eqn:E; [demo_unfold; discriminate|].
    unfold Demo.raise. intros [= <- _]. exact E.
Qed.

End DemoProperties.

(** ** Sample runs of the further properties *)

Lemma narrower_window_selects_witness :
  0 <= 2 <= 24 /\
  current (clock ticking_state) < datetime_end /\
  fst (get_latest_messages 24 None ticking_state) = Ok ticking_default_result /\
  fst (get_latest_messages 2 None ticking_state) =
  Ok (filter (fun m => current (clock ticking_state) - 2 * us_per_hour
                       <=? timestamp m) ticking_default_result).
Proof.
  assert (H1 : 0 <= 2 <= 24) by lia.
  assert (H2 : current (clock ticking_state) < datetime_end)
    by (vm_compute; reflexivity).
  assert (H3 : fst (get_latest_messages 24 None ticking_state)
               = Ok ticking_default_result) by (vm_compute; reflexivity).
  split; [exact H1 | split; [exact H2 | split; [exact H3 |]]].
  exact (narrower_window_selects 2 24 None ticking_state
           ticking_default_result H1 H2 H3).
Defined.

Lemma category_filter_selects_witness :
  fst (get_latest_messages 24 None ticking_state) = Ok ticking_default_result /\
  fst (get_latest_messages 24 (Some ["finance"%string]) ticking_state) =
  Ok (filter (fun m => str_in (category m) ["finance"%string])
        ticking_default_result).
Proof.
  assert (H : fst (get_latest_messages 24 None ticking_state)
              = Ok ticking_default_result) by (vm_compute; reflexivity).
  split; [exact H |].
  exact (category_filter_selects 24 ["finance"%string] ticking_state
           ticking_default_result H).
Defined.

Lemma empty_category_list_selects_nothing_witness :
  fst (get_latest_messages 24 None ticking_state) = Ok ticking_default_result /\
  fst (get_latest_messages 24 (Some []) ticking_state) = Ok [].
Proof.
  assert (H : fst (get_latest_messages 24 None ticking_state)
              = Ok ticking_default_result) by (vm_compute; reflexivity).
  split; [exact H |].
  exact (empty_category_list_selects_nothing 24 ticking_state
           ticking_default_result H).
Defined.

Lemma ties_keep_collection_order_witness :
  fst (get_latest_messages 24 None ticking_state) = Ok ticking_default_result /\
  exists produced c',
    run_prog (invoke_all (data_sources (self ticking_state)))
      (advance (clock ticking_state)) = (Ok produced, c') /\
    forall t,
      filter (fun m => timestamp m =? t) ticking_default_result =
      filter (fun m => timestamp m =? t)
        (filter (retained (current (clock ticking_state) - 24 * us_per_hour)
                   None) produced).
Proof.
  assert (H : fst (get_latest_messages 24 None ticking_state)
              = Ok ticking_default_result) by (vm_compute; reflexivity).
  split; [exact H |].
  exact (ties_keep_collection_order 24 None ticking_state
           ticking_default_result H).
Defined.

Lemma unrepresentable_cutoff_raises_witness :
  (current (clock broken_state) - 20000000 * us_per_hour < 0 \/
   datetime_end <= current (clock broken_state) - 20000000 * us_per_hour) /\
  get_latest_messages 20000000 None broken_state =
  (Raise OverflowError,
   {| self := self broken_state; clock := advance (clock broken_state) |}).
Proof.
  assert (H : current (clock broken_state) - 20000000 * us_per_hour < 0 \/
              datetime_end
              <= current (clock broken_state) - 20000000 * us_per_hour)
    by (left; vm_compute; reflexivity).
  split; [exact H |].
  exact (unrepresentable_cutoff_raises 20000000 None broken_state H).
Defined.


Lemma builtin_result_for_any_window_witness :
  posix ticking_clock /\ steady us_per_hour ticking_clock /\
  0 <= current ticking_clock - 2 * us_per_hour < datetime_end /\
  fst (get_latest_messages 2 two_categories
         {| self := __init__; clock := ticking_clock |}) =
  Ok (filter (retained (current ticking_clock - 2 * us_per_hour) two_categories)
        [ finance_record (reading ticking_clock 4 - 30 * us_per_minute);
          business_record (reading ticking_clock 2 - 1 * us_per_hour);
          technology_record (reading ticking_clock 1 - 2 * us_per_hour);
          product_record (reading ticking_clock 3 - 3 * us_per_hour);
          feedback_record (reading ticking_clock 5 - 4 * us_per_hour) ]).
Proof.
  assert (Hp : posix ticking_clock) by ticking_posix.
  assert (Hs : steady us_per_hour ticking_clock) by ticking_steady.
  assert (Hc : 0 <= current ticking_clock - 2 * us_per_hour < datetime_end)
    by (vm_compute; split; [discriminate | reflexivity]).
  split; [exact Hp | split; [exact Hs | split; [exact Hc |]]].
  exact (builtin_result_for_any_window 2 two_categories ticking_clock
           Hp Hs Hc).
Defined.

Lemma builtin_unknown_categories_witness :
  posix ticking_clock /\
  0 <= current ticking_clock - 24 * us_per_hour < datetime_end /\
  fst (get_latest_messages 24 (Some ["sports"%string])
         {| self := __init__; clock := ticking_clock |}) = Ok [].
Proof.
  assert (Hp : posix ticking_clock) by ticking_posix.
  assert (Hc : 0 <= current ticking_clock - 24 * us_per_hour < datetime_end)
    by (vm_compute; split; [discriminate | reflexivity]).
  assert (Hcs : forall tag, In tag ["sports"%string] ->
                  ~ In tag ["technology"; "business"; "product"; "finance";
                            "feedback"]%string).
  { intros tag [<-|[]] H. cbn in H.
    repeat (destruct H as [H|H]; [discriminate|]). exact H. }
  split; [exact Hp | split; [exact Hc |]].
  exact (builtin_unknown_categories 24 ["sports"%string] ticking_clock
           Hp Hc Hcs).
Defined.

Lemma init_rejects_incomplete_config_witness :
  config_complete (Demo.environ (sample_process broken_environment [])) = false /\
  Demo.__init__ (sample_process broken_environment []) =
  (Demo.Raises (Demo.ValueError Demo.config_error),
   with_stdout (sample_process broken_environment [])
     (Demo.stdout (sample_process broken_environment [])
      ++ [config_banner
            (Demo.environ (sample_process broken_environment []))])).
Proof.
  assert (H : config_complete
                (Demo.environ (sample_process broken_environment [])) = false)
    by (vm_compute; reflexivity).
  split; [exact H |].
  exact (init_rejects_incomplete_config
           (sample_process broken_environment []) H).
Defined.

Lemma fresh_demo_has_no_knowledge_base_witness :
  Demo.__init__ (sample_process full_environment [])
    = (Demo.Returns sample_demo, constructed_process) /\
  Demo.chat_with_latest_info "what is new?" (sample_demo, constructed_process)
    = (Demo.Returns Demo.no_knowledge_base, (sample_demo, constructed_process)) /\
  Demo.get_relevant_context "what is new?" 3 (sample_demo, constructed_process)
    = (Demo.Returns [], (sample_demo, constructed_process)).
Proof.
  assert (H : Demo.__init__ (sample_process full_environment [])
              = (Demo.Returns sample_demo, constructed_process))
    by reflexivity.
  split; [exact H |].
  exact (fresh_demo_has_no_knowledge_base
           (sample_process full_environment []) constructed_process
           sample_demo "what is new?" 3 H).
Defined.

Lemma update_without_messages_witness :
  fst (get_latest_messages 0 None
         (retriever_state sample_demo constructed_process)) = Ok [] /\
  Demo.update_knowledge_base 0 None (sample_demo, constructed_process) =
  (Demo.Returns tt,
   (sample_demo,
    after_retrieval constructed_process
      (snd (get_latest_messages 0 None
              (retriever_state sample_demo constructed_process)))
      [searching_line 0; nothing_found_line]
      (Demo.services constructed_process))).
Proof.
  assert (H : fst (get_latest_messages 0 None
                     (retriever_state sample_demo constructed_process))
              = Ok []) by (vm_compute; reflexivity).
  split; [exact H |].
  exact (update_without_messages 0 None sample_demo constructed_process H).
Defined.

Lemma update_passes_retrieval_failure_witness :
  fst (get_latest_messages (-100000000) None
         (retriever_state sample_demo constructed_process))
    = Raise OverflowError /\
  Demo.update_knowledge_base (-100000000) None
    (sample_demo, constructed_process) =
  (Demo.Raises (Demo.Retrieval OverflowError),
   (sample_demo,
    after_retrieval constructed_process
      (snd (get_latest_messages (-100000000) None
              (retriever_state sample_demo constructed_process)))
      [searching_line (-100000000)]
      (Demo.services constructed_process))).
Proof.
  assert (H : fst (get_latest_messages (-100000000) None
                     (retriever_state sample_demo constructed_process))
              = Raise OverflowError) by (vm_compute; reflexivity).
  split; [exact H |].
  exact (update_passes_retrieval_failure (-100000000) None sample_demo
           constructed_process OverflowError H).
Defined.

Lemma update_builds_knowledge_base_witness :
  let docs := map (@document_of counting_framework) ticking_default_result in
  fst (get_latest_messages 24 None
         (retriever_state sample_demo constructed_process))
    = Ok ticking_default_result /\
  Demo.update_knowledge_base 24 None (sample_demo, constructed_process) =
  (Demo.Returns tt,
   (with_knowledge_base sample_demo (Some docs) (Some docs),
    after_retrieval constructed_process
      (snd (get_latest_messages 24 None
              (retriever_state sample_demo constructed_process)))
      [searching_line 24; found_line (List.length ticking_default_result);
       building_line; done_line]
      7%nat)).
Proof.
  intros docs.
  assert (H : fst (get_latest_messages 24 None
                     (retriever_state sample_demo constructed_process))
              = Ok ticking_default_result) by (vm_compute; reflexivity).
  assert (Hne : ticking_default_result <> []) by discriminate.
  split; [exact H |].
  exact (update_builds_knowledge_base 24 None sample_demo constructed_process
           ticking_default_result docs docs docs 5%nat 6%nat 7%nat
           H Hne eq_refl eq_refl eq_refl).
Defined.

Lemma failed_build_keeps_knowledge_base_witness :
  fst (get_latest_messages 24 None
         (retriever_state adverse_demo (adverse_process full_environment [])))
    = Ok ticking_default_result /\
  exists p',
    Demo.update_knowledge_base 24 None
      (adverse_demo, adverse_process full_environment [])
    = (Demo.Raises (Demo.FrameworkError "embedding quota exceeded"),
       (adverse_demo, p')).
Proof.
  assert (H : fst (get_latest_messages 24 None
                     (retriever_state adverse_demo
                        (adverse_process full_environment [])))
              = Ok ticking_default_result) by (vm_compute; reflexivity).
  assert (Hne : ticking_default_result <> []) by discriminate.
  split; [exact H |].
  apply (failed_build_keeps_knowledge_base 24 None adverse_demo
           (adverse_process full_environment []) ticking_default_result
           (Demo.FrameworkError "embedding quota exceeded") H Hne).
  right.
  exists (map (@document_of adverse_framework) ticking_default_result),
    1%nat, 2%nat.
  split; reflexivity.
Defined.

Lemma chat_loop_spins_at_end_of_input_witness :
  Demo.stdin (snd (sample_demo, constructed_process)) = [] /\
  Demo.chat_loop 7 (sample_demo, constructed_process) = None.
Proof.
  assert (H : Demo.stdin (snd (sample_demo, constructed_process)) = [])
    by reflexivity.
  split; [exact H |].
  exact (chat_loop_spins_at_end_of_input 7 (sample_demo, constructed_process)
           H).
Defined.

Lemma chat_loop_ends_with_goodbye_witness :
  let start := (sample_demo, sample_process full_environment
                               [Demo.Line "what is new?"; Demo.CtrlC]) in
  let finish :=
    (sample_demo,
     with_stdout (sample_process full_environment [])
       [ prompt_text; (Demo.newline ++ "AI: ")%string;
         (Demo.no_knowledge_base ++ Demo.newline)%string;
         prompt_text; interrupted_goodbye_line ]) in
  Demo.chat_loop 5 start = Some (Demo.Returns tt, finish) /\
  Demo.Returns tt = Demo.Returns tt /\
  exists out,
    Demo.stdout (snd finish) = out ++ [goodbye_line] \/
    Demo.stdout (snd finish) = out ++ [interrupted_goodbye_line].
Proof.
  intros start finish.
  assert (H : Demo.chat_loop 5 start = Some (Demo.Returns tt, finish))
    by reflexivity.
  split; [exact H |].
  exact (chat_loop_ends_with_goodbye 5 start finish (Demo.Returns tt) H).
Defined.

Lemma main_reports_incomplete_config_witness :
  config_complete (Demo.environ (sample_process broken_environment
                                   [Demo.Line "quit"])) = false /\
  Demo.main 3 (sample_process broken_environment [Demo.Line "quit"]) =
  Some (Demo.Returns tt,
        with_stdout (sample_process broken_environment [Demo.Line "quit"])
          (Demo.stdout (sample_process broken_environment [Demo.Line "quit"])
           ++ config_banner
                (Demo.environ (sample_process broken_environment
                                 [Demo.Line "quit"]))
              :: config_help Demo.config_error)).
Proof.
  assert (H : config_complete
                (Demo.environ (sample_process broken_environment
                                 [Demo.Line "quit"])) = false)
    by (vm_compute; reflexivity).
  split; [exact H |].
  exact (main_reports_incomplete_config 3
           (sample_process broken_environment [Demo.Line "quit"]) H).
Defined.

Lemma main_lets_no_Exception_out_witness :
  Demo.main 3 (adverse_process full_environment []) =
  Some (Demo.Raises Demo.KeyboardInterrupt,
        @Demo.Build_Process adverse_framework ticking_clock full_environment
          [config_banner full_environment] [] 1%nat) /\
  Demo.is_Exception Demo.KeyboardInterrupt = false.
Proof.
  assert (H : Demo.main 3 (adverse_process full_environment []) =
              Some (Demo.Raises Demo.KeyboardInterrupt,
                    @Demo.Build_Process adverse_framework ticking_clock
                      full_environment [config_banner full_environment] []
                      1%nat)) by reflexivity.
  split; [exact H |].
  exact (main_lets_no_Exception_out 3 (adverse_process full_environment [])
           _ Demo.KeyboardInterrupt H).
Defined.
